(** * service_discovery_namespace: a shallow embedding and its properties

    The Ansible module [service_discovery_namespace.py] reconciles one AWS
    service-discovery namespace against a desired state.  The module is
    Python over boto3 dictionaries, so the embedding keeps Python's data
    (dynamically typed values, insertion-ordered dictionaries) and Python's
    effects (exceptions, [SystemExit] raised by [exit_json]/[fail_json],
    calls to the remote client threaded through a world that records them). *)

From Stdlib Require Import String Ascii List ZArith Bool Arith Lia DecimalString.
Import ListNotations.
Open Scope string_scope.
Open Scope list_scope.

Set Warnings "-register-all".

(** ** Python values *)

(** What a boto3 response or a module parameter can hold.  A datetime is
    kept as its POSIX time; floats do not occur in the shapes used here. *)
Inductive value : Type :=
| VNone
| VBool (b : bool)
| VInt (z : Z)
| VStr (s : string)
| VDatetime (t : Z)
| VList (l : list value)
| VDict (d : list (string * value)).

(** A dictionary with string keys, in insertion order. *)
Definition pydict := list (string * value).

(** Exceptions deriving from [Exception].  Only [str(e)] of an exception is
    ever observed by the module. *)
Inductive exn : Type :=
| KeyError (key : string)
| IndexError
| TypeError
| AttributeError
| UnboundLocalError (var : string)
| ClientError (msg : string)
| WaiterMaxAttempts
| WaiterErrorResponse (response : value).

Definition result (A : Type) := (exn + A)%type.

Fixpoint dict_get (k : string) (d : pydict) : option value :=
  match d with
  | [] => None
  | (k', v) :: t => if String.eqb k k' then Some v else dict_get k t
  end.

Definition dict_has (k : string) (d : pydict) : bool :=
  match dict_get k d with Some _ => true | None => false end.

(** [d[k] = v]: overwrite in place, or append a new key. *)
Fixpoint dict_set (k : string) (v : value) (d : pydict) : pydict :=
  match d with
  | [] => [(k, v)]
  | (k', v') :: t =>
      if String.eqb k k' then (k', v) :: t else (k', v') :: dict_set k v t
  end.

(** Two dictionaries with the same keys in the same order, and the same
    value under every key but [key]. *)
Definition same_but (key : string) (d d' : pydict) : Prop :=
  map fst d' = map fst d
  /\ forall k, k <> key -> dict_get k d' = dict_get k d.

(** Truth value of an object, as tested by [if x:] and [not x]. *)
Definition py_truthy (v : value) : bool :=
  match v with
  | VNone => false
  | VBool b => b
  | VInt z => negb (Z.eqb z 0)
  | VStr s => negb (String.eqb s "")
  | VDatetime _ => true
  | VList l => match l with [] => false | _ => true end
  | VDict d => match d with [] => false | _ => true end
  end.

(** [v == s] for a string [s]. *)
Definition py_eq_str (v : value) (s : string) : bool :=
  match v with VStr s' => String.eqb s' s | _ => false end.

(** [needle in hay] on strings: substring test. *)
Fixpoint is_substring (needle hay : string) : bool :=
  if String.prefix needle hay then true
  else match hay with
       | EmptyString => false
       | String _ rest => is_substring needle rest
       end.

(** [k in v] for a string [k]. *)
Definition py_contains (k : string) (v : value) : result bool :=
  match v with
  | VDict d => inr (dict_has k d)
  | VStr s => inr (is_substring k s)
  | VList l => inr (existsb (fun x => py_eq_str x k) l)
  | _ => inl TypeError
  end.

(** [v[k]] for a string [k]. *)
Definition py_getitem (v : value) (k : string) : result value :=
  match v with
  | VDict d => match dict_get k d with
               | Some x => inr x
               | None => inl (KeyError k)
               end
  | _ => inl TypeError
  end.

(** [v[k] = x] for a string [k]. *)
Definition py_setitem (v : value) (k : string) (x : value) : result value :=
  match v with
  | VDict d => inr (VDict (dict_set k x d))
  | _ => inl TypeError
  end.

Fixpoint chars (s : string) : list value :=
  match s with
  | EmptyString => []
  | String c rest => VStr (String c "") :: chars rest
  end.

(** The items a [for x in v] loop visits. *)
Definition py_iter (v : value) : result (list value) :=
  match v with
  | VList l => inr l
  | VDict d => inr (map (fun kv => VStr (fst kv)) d)
  | VStr s => inr (chars s)
  | _ => inl TypeError
  end.

Definition opt_value (o : option string) : value :=
  match o with Some s => VStr s | None => VNone end.

Definition opt_truthy (o : option string) : bool := py_truthy (opt_value o).

Definition opt_eq (o : option string) (s : string) : bool :=
  py_eq_str (opt_value o) s.

(** Sequencing of computations that may raise. *)
Definition rbind {A B : Type} (m : result A) (k : A -> result B) : result B :=
  match m with
  | inl e => inl e
  | inr a => k a
  end.

Notation "'let*' x ':=' m 'in' k" := (rbind m (fun x => k))
  (at level 10, x name, m at level 100, k at level 200).

Fixpoint result_map (f : value -> result value) (l : list value)
  : result (list value) :=
  match l with
  | [] => inr []
  | x :: t =>
      let* y := f x in
      let* t' := result_map f t in
      inr (y :: t')
  end.

(** ** The remote client and the world a run acts on *)

(** The operations of the boto3 [servicediscovery] client the module
    calls, each with the keyword arguments it is given. *)
Inductive call : Type :=
| list_namespaces_call (kwargs : pydict)
| get_namespace_call (kwargs : pydict)
| create_public_dns_namespace_call (kwargs : pydict)
| create_private_dns_namespace_call (kwargs : pydict)
| get_operation_call (kwargs : pydict)
| delete_namespace_call (kwargs : pydict).

(** What a run does to the outside: remote calls, and the waiter's sleeps. *)
Inductive event : Type :=
| Call (c : call)
| Sleep (seconds : Z).

(** How [exit_json], [fail_json] and argument validation end the process. *)
Inductive rejection : Type :=
| BadChoice (param : string)
| RequiredIfMissing (key val : string) (missing : list string).

Inductive exit_status : Type :=
| ExitJson (kwargs : pydict)
| FailJson (msg : string)
| Rejected (why : rejection).

(** What unwinds the stack: an [Exception], which [except Exception]
    catches, or the [SystemExit] of [exit_json]/[fail_json], which it does
    not. *)
Inductive raised : Type :=
| Exception (e : exn)
| SystemExit (o : exit_status).

(** How the process ends. *)
Inductive outcome : Type :=
| Exited (o : exit_status)
| Traceback (e : exn)
| NoOutput.

(** The module's parameters after type coercion ([state] and [name] are
    [required=True]; the optional ones are [None] when omitted). *)
Record module_params : Type := {
  state : string;
  type : option string;
  name : string;
  creator_request_id : option string;
  description : option string;
  wait : bool;
  vpc_id : option string
}.

(** ** A stateful stand-in for the remote control plane *)

(** Modelled from the spec: the collaborator interface of section 6
    (ListNamespaces, GetNamespace, CreateNamespace, GetOperation,
    DeleteNamespace) as a deterministic state machine.  A create adds the
    namespace at once and hands back an operation that answers PENDING to
    its first [latency] polls and SUCCESS afterwards.  Keyword arguments
    beyond the ones read here are accepted and ignored. *)
Module Fake.

Record namespace : Type := {
  ns_id : string;
  ns_name : string;
  ns_type : string
}.

Record operation : Type := {
  op_id : string;
  op_target : string;
  op_pending : nat
}.

Record remote : Type := {
  namespaces : list namespace;
  operations : list operation;
  next_id : nat;
  latency : nat
}.

Definition decimal (n : nat) : string := NilEmpty.string_of_uint (Nat.to_uint n).

Definition summary (ns : namespace) : value :=
  VDict [("Id", VStr (ns_id ns)); ("Name", VStr (ns_name ns));
         ("Type", VStr (ns_type ns))].

(** The TYPE filter of a [Filters] argument: [None] when there is none. *)
Definition type_filter (filters : option value) : result (option string) :=
  match filters with
  | None => inr None
  | Some (VList []) => inr None
  | Some (VList [VDict f]) =>
      match dict_get "Name" f, dict_get "Values" f with
      | Some (VStr "TYPE"), Some (VList [VStr t]) => inr (Some t)
      | _, _ => inl (ClientError "InvalidInput")
      end
  | Some _ => inl (ClientError "InvalidInput")
  end.

Definition has_type (t : option string) (ns : namespace) : bool :=
  match t with
  | None => true
  | Some t => String.eqb (ns_type ns) t
  end.

Definition list_namespaces (kwargs : pydict) (r : remote)
  : result value * remote :=
  match type_filter (dict_get "Filters" kwargs) with
  | inl e => (inl e, r)
  | inr t =>
      (inr (VDict [("Namespaces",
                    VList (map summary (filter (has_type t) (namespaces r))))]),
       r)
  end.

Definition find_namespace (id : string) (r : remote) : option namespace :=
  find (fun ns => String.eqb (ns_id ns) id) (namespaces r).

Definition get_namespace (kwargs : pydict) (r : remote)
  : result value * remote :=
  match dict_get "Id" kwargs with
  | Some (VStr id) =>
      match find_namespace id r with
      | Some ns => (inr (VDict [("Namespace", summary ns)]), r)
      | None => (inl (ClientError "NamespaceNotFound"), r)
      end
  | _ => (inl (ClientError "InvalidInput"), r)
  end.

Definition fresh_ns_id (r : remote) : string :=
  ("ns-" ++ decimal (next_id r))%string.

Definition fresh_op_id (r : remote) : string :=
  ("op-" ++ decimal (next_id r))%string.

Definition new_namespace (ty nm : string) (r : remote) : namespace :=
  {| ns_id := fresh_ns_id r; ns_name := nm; ns_type := ty |}.

Definition new_operation (pending : nat) (r : remote) : operation :=
  {| op_id := fresh_op_id r; op_target := fresh_ns_id r;
     op_pending := pending |}.

(** The remote after a create, the new operation having [pending] polls
    to go. *)
Definition with_created (ty nm : string) (pending : nat) (r : remote)
  : remote :=
  {| namespaces := namespaces r ++ [new_namespace ty nm r];
     operations := operations r ++ [new_operation pending r];
     next_id := S (next_id r);
     latency := latency r |}.

Definition create (ty : string) (nm : string) (r : remote)
  : result value * remote :=
  (inr (VDict [("OperationId", VStr (fresh_op_id r))]),
   with_created ty nm (latency r) r).

Definition create_public_dns_namespace (kwargs : pydict) (r : remote)
  : result value * remote :=
  match dict_get "Name" kwargs with
  | Some (VStr nm) => create "DNS_PUBLIC" nm r
  | _ => (inl (ClientError "InvalidInput"), r)
  end.

Definition create_private_dns_namespace (kwargs : pydict) (r : remote)
  : result value * remote :=
  match dict_get "Name" kwargs, dict_get "Vpc" kwargs with
  | Some (VStr nm), Some (VStr _) => create "DNS_PRIVATE" nm r
  | _, _ => (inl (ClientError "InvalidInput"), r)
  end.

Fixpoint poll (id : string) (ops : list operation)
  : option (operation * list operation) :=
  match ops with
  | [] => None
  | o :: t =>
      if String.eqb (op_id o) id
      then Some (o, {| op_id := op_id o; op_target := op_target o;
                       op_pending := Nat.pred (op_pending o) |} :: t)
      else match poll id t with
           | Some (found, t') => Some (found, o :: t')
           | None => None
           end
  end.

(** The answer to a poll of [o]. *)
Definition describe (o : operation) : value :=
  VDict [("Operation",
          VDict [("Id", VStr (op_id o));
                 ("Status", VStr match op_pending o with
                                 | O => "SUCCESS"
                                 | S _ => "PENDING"
                                 end);
                 ("Targets", VDict [("NAMESPACE", VStr (op_target o))])])].

Definition get_operation (kwargs : pydict) (r : remote)
  : result value * remote :=
  match dict_get "OperationId" kwargs with
  | Some (VStr id) =>
      match poll id (operations r) with
      | Some (o, ops') =>
          (inr (describe o),
           {| namespaces := namespaces r; operations := ops';
              next_id := next_id r; latency := latency r |})
      | None => (inl (ClientError "OperationNotFound"), r)
      end
  | _ => (inl (ClientError "InvalidInput"), r)
  end.

Definition delete_namespace (kwargs : pydict) (r : remote)
  : result value * remote :=
  match dict_get "Id" kwargs with
  | Some (VStr id) =>
      match find_namespace id r with
      | Some _ =>
          (inr (VDict [("OperationId", VStr (fresh_op_id r))]),
           {| namespaces :=
                filter (fun ns => negb (String.eqb (ns_id ns) id))
                       (namespaces r);
              operations := operations r;
              next_id := S (next_id r);
              latency := latency r |})
      | None => (inl (ClientError "NamespaceNotFound"), r)
      end
  | _ => (inl (ClientError "InvalidInput"), r)
  end.

Definition client (c : call) (r : remote) : result value * remote :=
  match c with
  | list_namespaces_call kw => list_namespaces kw r
  | get_namespace_call kw => get_namespace kw r
  | create_public_dns_namespace_call kw => create_public_dns_namespace kw r
  | create_private_dns_namespace_call kw => create_private_dns_namespace kw r
  | get_operation_call kw => get_operation kw r
  | delete_namespace_call kw => delete_namespace kw r
  end.

Definition empty (lat : nat) : remote :=
  {| namespaces := []; operations := []; next_id := 0; latency := lat |}.

(** The ids the remote hands out next are not in use. *)
Definition fresh (r : remote) : Prop :=
  (forall o, In o (operations r) -> op_id o <> fresh_op_id r)
  /\ (forall ns, In ns (namespaces r) -> ns_id ns <> fresh_ns_id r).


End Fake.

(** A [str] for the examples: strings print as themselves. *)
Definition sample_str (v : value) : string :=
  match v with
  | VStr s => s
  | VNone => "None"
  | VBool true => "True"
  | VBool false => "False"
  | VInt z => NilEmpty.string_of_int (Z.to_int z)
  | VDatetime t => ("datetime@" ++ NilEmpty.string_of_int (Z.to_int t))%string
  | VList _ => "[...]"
  | VDict _ => "{...}"
  end.

Definition sample_exn_str (e : exn) : string :=
  match e with
  | KeyError k => ("'" ++ k ++ "'")%string
  | IndexError => "list index out of range"
  | TypeError => "TypeError"
  | AttributeError => "AttributeError"
  | UnboundLocalError v =>
      ("local variable '" ++ v ++ "' referenced before assignment")%string
  | ClientError m => m
  | WaiterMaxAttempts => "Waiter namespace_created failed: Max attempts exceeded"
  | WaiterErrorResponse _ => "Waiter namespace_created failed"
  end.

(** A key conversion for the examples: lower-case, with an underscore before
    each capital but the first. *)
Definition lower (c : ascii) : ascii :=
  let n := nat_of_ascii c in
  if ((65 <=? n) && (n <=? 90))%nat then ascii_of_nat (n + 32) else c.

Definition is_upper (c : ascii) : bool :=
  let n := nat_of_ascii c in ((65 <=? n) && (n <=? 90))%nat.

Fixpoint snake_tail (s : string) : string :=
  match s with
  | EmptyString => EmptyString
  | String c rest =>
      if is_upper c then String "_" (String (lower c) (snake_tail rest))
      else String c (snake_tail rest)
  end.

Definition sample_snake (s : string) : string :=
  match s with
  | EmptyString => EmptyString
  | String c rest => String (lower c) (snake_tail rest)
  end.

(** The input of the module's own EXAMPLES, with the state, type, vpc and
    wait flag of the case at hand. *)
Definition example_params (st : string) (ty vpc : option string) (w : bool)
  : module_params :=
  {| state := st; type := ty; name := "my-namespace";
     creator_request_id := None; description := None;
     wait := w; vpc_id := vpc |}.

(** A namespace as [get_namespace] returns it, with the fields of the
    module's RETURN documentation. *)
Definition example_namespace : value :=
  VDict [("Id", VStr "ns-1"); ("Name", VStr "my-namespace");
         ("Type", VStr "DNS_PUBLIC"); ("CreateDate", VDatetime 1546300800)].

(** The remote holding the namespace of the example, once and twice. *)
Definition example_remote : Fake.remote :=
  Fake.with_created "DNS_PRIVATE" "my-namespace" 0 (Fake.empty 0).

Definition example_remote_twice : Fake.remote :=
  Fake.with_created "DNS_PRIVATE" "my-namespace" 0 example_remote.

(** A remote out of reach: every call raises. *)
Definition unreachable (c : call) (u : unit) : result value * unit :=
  (inl (ClientError "EndpointConnectionError"), u).

(** A remote that answers every call with an empty response. *)
Definition mute (c : call) (u : unit) : result value * unit :=
  (inr (VDict []), u).

(** The stateful remote for a caller that may only read: create and
    delete calls are refused. *)
Definition read_only (c : call) (r : Fake.remote)
  : result value * Fake.remote :=
  match c with
  | create_public_dns_namespace_call _
  | create_private_dns_namespace_call _
  | delete_namespace_call _ => (inl (ClientError "AccessDeniedException"), r)
  | _ => Fake.client c r
  end.

(** The stateful remote answering every fetch with an empty namespace. *)
Definition hollow (c : call) (r : Fake.remote) : result value * Fake.remote :=
  match c with
  | get_namespace_call _ => (inr (VDict [("Namespace", VDict [])]), r)
  | _ => Fake.client c r
  end.

(** A service with the timestamps [jsonize] looks for. *)
Definition example_service : pydict :=
  [("serviceName", VStr "web"); ("createdAt", VDatetime 1546300800);
   ("deployments",
    VList [VDict [("id", VStr "d-1"); ("createdAt", VDatetime 1546300800);
                  ("updatedAt", VDatetime 1546300860)]]);
   ("events",
    VList [VDict [("message", VStr "started");
                  ("createdAt", VDatetime 1546300900)]])].

(** The [Filters] argument that asks the remote for the namespaces of one
    type, and the one that asks for all of them. *)
Definition expected_filters (ty : option string) : value :=
  match ty with
  | Some t => VList [VDict [("Name", VStr "TYPE");
                            ("Values", VList [VStr t])]]
  | None => VList []
  end.

(** A remote that holds the namespace of the example among others: one of
    another name, and one of the same name and the other type. *)
Definition crowded_remote : Fake.remote :=
  {| Fake.namespaces :=
       [{| Fake.ns_id := "ns-0"; Fake.ns_name := "other";
           Fake.ns_type := "DNS_PRIVATE" |};
        {| Fake.ns_id := "ns-1"; Fake.ns_name := "my-namespace";
           Fake.ns_type := "DNS_PUBLIC" |};
        {| Fake.ns_id := "ns-2"; Fake.ns_name := "my-namespace";
           Fake.ns_type := "DNS_PRIVATE" |}];
     Fake.operations := [];
     Fake.next_id := 3;
     Fake.latency := 0 |}.

(** A remote that holds a namespace of another name, and whose operations
    take ten polls to reach SUCCESS. *)
Definition slow_remote : Fake.remote :=
  {| Fake.namespaces :=
       [{| Fake.ns_id := "ns-0"; Fake.ns_name := "other";
           Fake.ns_type := "DNS_PUBLIC" |}];
     Fake.operations := [];
     Fake.next_id := 1;
     Fake.latency := 10 |}.

(** The example input with a description. *)
Definition described_params : module_params :=
  {| state := "present"; type := Some "DNS_PUBLIC"; name := "my-namespace";
     creator_request_id := None; description := Some "my namespace";
     wait := true; vpc_id := None |}.

(** The keyword arguments the two create operations of the client have. *)
Definition create_arguments (c : call) : option (list string) :=
  match c with
  | create_public_dns_namespace_call _ =>
      Some ["Name"; "CreatorRequestId"; "Description"]
  | create_private_dns_namespace_call _ =>
      Some ["Name"; "CreatorRequestId"; "Description"; "Vpc"]
  | _ => None
  end.

Definition kwargs_of (c : call) : pydict :=
  match c with
  | list_namespaces_call kw => kw
  | get_namespace_call kw => kw
  | create_public_dns_namespace_call kw => kw
  | create_private_dns_namespace_call kw => kw
  | get_operation_call kw => kw
  | delete_namespace_call kw => kw
  end.

(** The stateful remote behind the parameter validation of the client: a
    create call that carries a keyword argument the operation does not
    have is refused before anything is sent. *)
Definition validated (c : call) (r : Fake.remote)
  : result value * Fake.remote :=
  match create_arguments c with
  | Some allowed =>
      match find (fun kv => negb (existsb (String.eqb (fst kv)) allowed))
                 (kwargs_of c) with
      | Some kv =>
          (inl (ClientError
                  ("Parameter validation failed: Unknown parameter in input: "
                   ++ fst kv)%string), r)
      | None => Fake.client c r
      end
  | None => Fake.client c r
  end.

(** ** The module *)

Section ServiceDiscoveryNamespace.

(** The remote client [module.client('servicediscovery')]: any state
    machine answering the six operations, with a response or an exception. *)
Variable St : Type.
Variable sd : call -> St -> result value * St.

(** Python's [str] on values and on exceptions, and the key conversion
    [_camel_to_snake] of [ansible.module_utils]. *)
Variable py_str : value -> string.
Variable exn_str : exn -> string.
Variable camel_to_snake : string -> string.

(** A run threads the remote state and the record of what it did. *)
Definition world : Type := (St * list event)%type.

Definition M (A : Type) : Type := world -> (raised + A) * world.

Definition ret {A : Type} (a : A) : M A := fun w => (inr a, w).

Definition bind {A B : Type} (m : M A) (k : A -> M B) : M B :=
  fun w =>
    match m w with
    | (inl r, w') => (inl r, w')
    | (inr a, w') => k a w'
    end.

Notation "x <- m ;; k" := (bind m (fun x => k))
  (at level 61, m at next level, right associativity).
Notation "m ;; k" := (bind m (fun _ => k))
  (at level 61, right associativity).

Definition raise {A : Type} (e : exn) : M A :=
  fun w => (inl (Exception e), w).

Definition lift {A : Type} (r : result A) : M A :=
  match r with
  | inl e => raise e
  | inr a => ret a
  end.

Definition exit_json {A : Type} (kwargs : pydict) : M A :=
  fun w => (inl (SystemExit (ExitJson kwargs)), w).

Definition fail_json {A : Type} (msg : string) : M A :=
  fun w => (inl (SystemExit (FailJson msg)), w).

Definition reject {A : Type} (why : rejection) : M A :=
  fun w => (inl (SystemExit (Rejected why)), w).

(** [try: body / except Exception as e: handler e]. *)
Definition try_except {A : Type} (body : M A) (handler : exn -> M A) : M A :=
  fun w =>
    match body w with
    | (inl (Exception e), w') => handler e w'
    | r => r
    end.

(** A call of a method of [self.sd] with keyword arguments: recorded,
    then answered by the remote. *)
Definition client_call (c : call) : M value :=
  fun w =>
    let (s, tr) := w in
    let (r, s') := sd c s in
    (match r with
     | inl e => inl (Exception e)
     | inr v => inr v
     end, (s', tr ++ [Call c])).

Definition sleep (seconds : Z) : M unit :=
  fun w => (inr tt, (fst w, snd w ++ [Sleep seconds])).

(** *** [sd_waiter_config] and botocore's [Waiter.wait] *)

Definition delay : Z := 5.
Definition maxAttempts : nat := 10.
Definition acceptor_argument : list string := ["Operation"; "Status"].
Definition acceptor_expected : string := "SUCCESS".

(** The JMESPath search of a dotted path: [None] where a field is absent. *)
Fixpoint jmespath_search (path : list string) (v : value) : value :=
  match path with
  | [] => v
  | k :: rest =>
      match v with
      | VDict d => match dict_get k d with
                   | Some x => jmespath_search rest x
                   | None => VNone
                   end
      | _ => VNone
      end
  end.

(** The "path" matcher of the one acceptor. *)
Definition acceptor_matches (response : value) : result bool :=
  let* err := py_contains "Error" response in
  if err then inr false
  else inr (py_eq_str (jmespath_search acceptor_argument response)
                      acceptor_expected).

(** One attempt of [Waiter.wait] and, unless it ends the wait, the sleep
    and the [more] attempts left. *)
Fixpoint wait_attempts (more : nat) (kwargs : pydict) : M unit :=
  response <- client_call (get_operation_call kwargs) ;;
  matched <- lift (acceptor_matches response) ;;
  if matched then ret tt
  else
    err <- lift (py_contains "Error" response) ;;
    if err then raise (WaiterErrorResponse response)
    else match more with
         | O => raise WaiterMaxAttempts
         | S m => sleep delay ;; wait_attempts m kwargs
         end.

Definition waiter_wait (kwargs : pydict) : M unit :=
  wait_attempts (maxAttempts - 1) kwargs.

(** *** Helpers of [ansible.module_utils] *)

(** Modelled from the spec: [ansible_dict_to_boto3_filter_list] of
    [ansible.module_utils.ec2], the "filter construction" plumbing: one
    filter per key, a string value wrapped in a list. *)
Definition ansible_dict_to_boto3_filter_list (d : pydict) : value :=
  VList (map (fun kv =>
                VDict [("Name", VStr (fst kv));
                       ("Values", match snd kv with
                                  | VStr s => VList [VStr s]
                                  | v => v
                                  end)]) d).

Definition dict_of_items (items : pydict) : pydict :=
  fold_left (fun acc kv => dict_set (fst kv) (snd kv) acc) items [].

Fixpoint snake_value (v : value) : value :=
  match v with
  | VDict d =>
      VDict (dict_of_items
               (map (fun kv => match kv with
                               | (k, x) => (camel_to_snake k, snake_value x)
                               end) d))
  | VList l => VList (map snake_value l)
  | _ => v
  end.

(** Modelled from the spec: [camel_dict_to_snake_dict] of
    [ansible.module_utils.common.dict_transformations], which renames the
    keys of a dictionary, and of the dictionaries nested in it, to the
    caller-facing convention; anything but a dictionary has no [items()]. *)
Definition camel_dict_to_snake_dict (v : value) : result value :=
  match v with
  | VDict _ => inr (snake_value v)
  | _ => inl AttributeError
  end.

(** *** [class ServiceDiscoveryNamespace] *)

(** [if key in obj: obj[key] = str(obj[key])]. *)
Definition stringify (key : string) (obj : value) : result value :=
  let* present := py_contains key obj in
  if present
  then let* x := py_getitem obj key in
       py_setitem obj key (VStr (py_str x))
  else inr obj.

(** [for x in service[key]: each x], the loop of [jsonize] over a nested
    list; the dictionaries of a list are updated in place, so the list the
    service holds ends up with the updated items. *)
Definition stringify_each (key : string) (each : value -> result value)
  (service : value) : result value :=
  let* present := py_contains key service in
  if present
  then let* xs := py_getitem service key in
       let* items := py_iter xs in
       let* items' := result_map each items in
       match xs with
       | VList _ => py_setitem service key (VList items')
       | _ => inr service
       end
  else inr service.

Definition jsonize (service : value) : result value :=
  let* service := stringify "createdAt" service in
  let* service :=
    stringify_each "deployments"
      (fun d => let* d := stringify "createdAt" d in
                stringify "updatedAt" d)
      service in
  stringify_each "events" (fun e => stringify "createdAt" e) service.

Definition get_operation (operation_id : value) : M value :=
  client_call (get_operation_call [("OperationId", operation_id)]).

(** The [filters] of [list_namespaces]. *)
Definition type_filters (type : option string) : value :=
  if opt_truthy type
  then ansible_dict_to_boto3_filter_list [("TYPE", opt_value type)]
  else VList [].

Definition list_namespaces (type : option string) : M value :=
  client_call (list_namespaces_call [("Filters", type_filters type)]).

(** The loop of [get_namespaces_by_name]. *)
Fixpoint matching_namespaces (namespace_name : string) (items : list value)
  : result (list value) :=
  match items with
  | [] => inr []
  | ns :: rest =>
      let* n := py_getitem ns "Name" in
      let* rest' := matching_namespaces namespace_name rest in
      inr (if py_eq_str n namespace_name then ns :: rest' else rest')
  end.

(** Returns [None] or a list. *)
Definition get_namespaces_by_name (namespace_name : string)
  (type : option string) : M (option (list value)) :=
  namespaces <- list_namespaces type ;;
  if negb (py_truthy namespaces) then ret None
  else
    listed <- lift (py_getitem namespaces "Namespaces") ;;
    items <- lift (py_iter listed) ;;
    matching <- lift (matching_namespaces namespace_name items) ;;
    ret (Some matching).

Definition get_namespace (namespace_id : value) : M value :=
  response <- client_call (get_namespace_call [("Id", namespace_id)]) ;;
  namespace <- lift (py_getitem response "Namespace") ;;
  if negb (py_truthy namespace) then ret VNone
  else lift (jsonize namespace).

(** "Creator request id and description are optional; only include if
    given": the statements both create methods share.  The description
    goes under the key [description], in lower case. *)
Definition optional_params (creator_request_id description : option string)
  (params : pydict) : pydict :=
  let params :=
    if opt_truthy creator_request_id
    then dict_set "CreatorRequestId" (opt_value creator_request_id) params
    else params in
  if opt_truthy description
  then dict_set "description" (opt_value description) params
  else params.

(** What both create methods do with the response of their create call,
    from [operation = response['OperationId']] on; the two methods hold
    the same statements. *)
Definition await_namespace (response : value) (wait : bool) : M value :=
  operation <- lift (py_getitem response "OperationId") ;;
  if wait
  then
    waiter_wait [("OperationId", operation)] ;;
    operationResponse <-
      client_call (get_operation_call [("OperationId", operation)]) ;;
    op <- lift (py_getitem operationResponse "Operation") ;;
    targets <- lift (py_getitem op "Targets") ;;
    namespace_id <- lift (py_getitem targets "NAMESPACE") ;;
    got <- client_call (get_namespace_call [("Id", namespace_id)]) ;;
    lift (py_getitem got "Namespace")
  else ret response.

Definition create_public_dns_namespace (name : string)
  (description creator_request_id : option string) (wait : bool) : M value :=
  let params :=
    optional_params creator_request_id description [("Name", VStr name)] in
  response <- client_call (create_public_dns_namespace_call params) ;;
  await_namespace response wait.

Definition create_private_dns_namespace (name : string)
  (description creator_request_id vpc_id : option string) (wait : bool)
  : M value :=
  let params :=
    optional_params creator_request_id description
      [("Name", VStr name); ("Vpc", opt_value vpc_id)] in
  response <- client_call (create_private_dns_namespace_call params) ;;
  await_namespace response wait.

Definition create_namespace (name : string) (type : option string)
  (description creator_request_id vpc_id : option string) (wait : bool)
  : M value :=
  namespace <-
    (if opt_eq type "DNS_PRIVATE"
     then ns <- create_private_dns_namespace name description
                  creator_request_id vpc_id wait ;;
          ret (Some ns)
     else ret None) ;;
  namespace <-
    (if opt_eq type "DNS_PUBLIC"
     then ns <- create_public_dns_namespace name description
                  creator_request_id wait ;;
          ret (Some ns)
     else ret namespace) ;;
  match namespace with
  | Some ns => lift (jsonize ns)
  | None => raise (UnboundLocalError "namespace")
  end.

Definition delete_namespace (id : value) : M value :=
  client_call (delete_namespace_call [("Id", id)]).

(** *** Argument validation and [main] *)

(** [module.params[key]]. *)
Definition param (p : module_params) (key : string) : value :=
  if String.eqb key "state" then VStr (state p)
  else if String.eqb key "type" then opt_value (type p)
  else if String.eqb key "name" then VStr (name p)
  else if String.eqb key "creator_request_id"
       then opt_value (creator_request_id p)
  else if String.eqb key "description" then opt_value (description p)
  else if String.eqb key "wait" then VBool (wait p)
  else if String.eqb key "vpc_id" then opt_value (vpc_id p)
  else VNone.

(** The [choices] of [argument_spec] and the [required_if] of [main]. *)
Definition argument_choices : list (string * list string) :=
  [("state", ["present"; "absent"]); ("type", ["DNS_PRIVATE"; "DNS_PUBLIC"])].

Definition required_if : list (string * string * list string) :=
  [("state", "present", ["type"]); ("type", "private", ["vpc_id"])].

Definition is_none (v : value) : bool :=
  match v with VNone => true | _ => false end.

(** Modelled from the spec: the argument validation of [AnsibleModule]
    ([ansible.module_utils.basic], not among the sources), which rejects
    an input "before any remote call".  Its [choices] check: a parameter
    that is given must be one of its choices. *)
Definition check_argument_values (p : module_params) : option rejection :=
  match find (fun kc =>
                match param p (fst kc) with
                | VStr s => negb (existsb (String.eqb s) (snd kc))
                | _ => false
                end) argument_choices with
  | Some kc => Some (BadChoice (fst kc))
  | None => None
  end.

Definition missing_requirements (p : module_params) (reqs : list string)
  : list string :=
  filter (fun r => is_none (param p r)) reqs.

(** Modelled from the spec: the "required combination of inputs" check of
    [AnsibleModule] ([ansible.module_utils.basic], not among the sources),
    over the [required_if] table [main] passes: for an entry
    [(key, val, requirements)], when [params[key] == val] every parameter
    of [requirements] must be given. *)
Definition check_required_if (p : module_params) : option rejection :=
  match find (fun sp =>
                match sp with
                | (key, val, reqs) =>
                    py_eq_str (param p key) val &&
                    negb (match missing_requirements p reqs with
                          | [] => true
                          | _ => false
                          end)
                end) required_if with
  | Some (key, val, reqs) =>
      Some (RequiredIfMissing key val (missing_requirements p reqs))
  | None => None
  end.

(** The constructor [AnsibleAWSModule(...)]: returns when the arguments
    pass, exits through [fail_json] otherwise.  No remote call is made,
    neither here nor by [module.client('servicediscovery')], which only
    builds the client and is taken to succeed. *)
Definition AnsibleAWSModule (p : module_params) : M module_params :=
  match check_argument_values p with
  | Some why => reject why
  | None =>
      match check_required_if p with
      | Some why => reject why
      | None => ret p
      end
  end.

(** [len(existing)] and [existing[0]] on what [get_namespaces_by_name]
    returns. *)
Definition len_existing (existing : option (list value)) : result nat :=
  match existing with
  | None => inl TypeError
  | Some l => inr (List.length l)
  end.

Definition first_existing (existing : option (list value)) : result value :=
  match existing with
  | None => inl TypeError
  | Some [] => inl IndexError
  | Some (x :: _) => inr x
  end.

Definition not_existing (existing : option (list value)) : bool :=
  match existing with
  | None => true
  | Some [] => true
  | Some (_ :: _) => false
  end.

Definition failure_message (p : module_params) (e : exn) : string :=
  ("Exception '" ++ name p ++ "': " ++ exn_str e)%string.

Definition main_present (p : module_params) : M unit :=
  existing <-
    try_except
      (existing <- get_namespaces_by_name (name p) (type p) ;;
       n <- lift (len_existing existing) ;;
       (if Nat.eqb n 1
        then first <- lift (first_existing existing) ;;
             id <- lift (py_getitem first "Id") ;;
             namespace <- get_namespace id ;;
             snake <- lift (camel_dict_to_snake_dict namespace) ;;
             exit_json [("changed", VBool false); ("namespace", snake)]
        else ret tt) ;;
       (if not_existing existing
        then namespace <- create_namespace (name p) (type p) (description p)
                            (creator_request_id p) (vpc_id p) (wait p) ;;
             snake <- lift (camel_dict_to_snake_dict namespace) ;;
             exit_json [("changed", VBool true); ("namespace", snake)]
        else ret tt) ;;
       ret existing)
      (fun e => fail_json (failure_message p e)) ;;
  (* exit_json is applied to the list [existing] as keyword arguments *)
  raise TypeError.

Definition main_absent (p : module_params) : M unit :=
  try_except
    (existing <- get_namespaces_by_name (name p) (type p) ;;
     first <- lift (first_existing existing) ;;
     id <- lift (py_getitem first "Id") ;;
     delete_namespace id ;;
     exit_json [("changed", VBool true)])
    (fun e => fail_json (failure_message p e)).

Definition main (p : module_params) : M unit :=
  p <- AnsibleAWSModule p ;;
  (if String.eqb (state p) "present" then main_present p else ret tt) ;;
  (if String.eqb (state p) "absent" then main_absent p else ret tt).

(** A whole run of the module against the remote in state [s]: how the
    process ends, what it did, and the state it leaves. *)
Definition run (p : module_params) (s : St) : outcome * list event * St :=
  match main p (s, []) with
  | (inl (SystemExit o), (s', tr)) => (Exited o, tr, s')
  | (inl (Exception e), (s', tr)) => (Traceback e, tr, s')
  | (inr _, (s', tr)) => (NoOutput, tr, s')
  end.

(** ** The vocabulary of the statements *)

(** The type-filtered listing of the remote in state [s] holds the
    namespace summaries [nss] (and leaves the remote in [s1]). *)
Definition lists (type : option string) (s : St) (nss : list value) (s1 : St)
  : Prop :=
  exists d,
    sd (list_namespaces_call [("Filters", type_filters type)]) s
    = (inr (VDict d), s1)
    /\ dict_get "Namespaces" d = Some (VList nss).

(** The [type] of an accepted input is one of the two choices. *)
Definition type_given (p : module_params) : Prop :=
  type p = Some "DNS_PRIVATE" \/ type p = Some "DNS_PUBLIC".

Definition type_allowed (p : module_params) : Prop :=
  type p = None \/ type_given p.

Definition is_create (ev : event) : bool :=
  match ev with
  | Call (create_public_dns_namespace_call _) => true
  | Call (create_private_dns_namespace_call _) => true
  | _ => false
  end.

Definition is_delete (ev : event) : bool :=
  match ev with
  | Call (delete_namespace_call _) => true
  | _ => false
  end.

Definition is_poll (ev : event) : bool :=
  match ev with
  | Call (get_operation_call _) => true
  | _ => false
  end.

(** The create call a present-state run makes for [p]. *)
Definition create_call (p : module_params) : call :=
  if opt_eq (type p) "DNS_PRIVATE"
  then create_private_dns_namespace_call
         (optional_params (creator_request_id p) (description p)
            [("Name", VStr (name p)); ("Vpc", opt_value (vpc_id p))])
  else create_public_dns_namespace_call
         (optional_params (creator_request_id p) (description p)
            [("Name", VStr (name p))]).

(** A create call is type-specific for [p]: the public operation without
    a [Vpc] argument, or the private one with [Vpc] set to [vpc_id]. *)
Definition type_specific (p : module_params) (c : call) : Prop :=
  match c with
  | create_public_dns_namespace_call kw =>
      type p = Some "DNS_PUBLIC"
      /\ dict_get "Name" kw = Some (VStr (name p))
      /\ dict_get "Vpc" kw = None
  | create_private_dns_namespace_call kw =>
      type p = Some "DNS_PRIVATE"
      /\ dict_get "Name" kw = Some (VStr (name p))
      /\ dict_get "Vpc" kw = Some (opt_value (vpc_id p))
  | _ => False
  end.

(** Polling the operation [op] from the remote state [s]: the state after
    [k] polls, and the answer to the poll made then. *)
Definition poll_call (op : value) : call :=
  get_operation_call [("OperationId", op)].

Fixpoint after_polls (op : value) (k : nat) (s : St) : St :=
  match k with
  | O => s
  | S k' => after_polls op k' (snd (sd (poll_call op) s))
  end.

Definition poll_answer (op : value) (k : nat) (s : St) : result value :=
  fst (sd (poll_call op) (after_polls op k s)).

(** An answer whose [Operation.Status] is SUCCESS. *)
Definition poll_succeeds (r : result value) : Prop :=
  exists v, r = inr v /\ acceptor_matches v = inr true.

(** An answer that lets the waiter go on: a response, not an error
    response, whose status is not SUCCESS. *)
Definition poll_pending (r : result value) : Prop :=
  exists v, r = inr v /\ acceptor_matches v = inr false
            /\ py_contains "Error" v = inr false.

(** The operation [op] reaches SUCCESS at poll [k], within the budget. *)
Definition succeeds_at (op : value) (s : St) (k : nat) : Prop :=
  k < maxAttempts
  /\ (forall i, i < k -> poll_pending (poll_answer op i s))
  /\ poll_succeeds (poll_answer op k s).

(** What a wait that succeeds at poll [k] does: [k] polls each followed by
    a sleep, and the poll that succeeds. *)
Fixpoint polls_trace (op : value) (k : nat) : list event :=
  match k with
  | O => [Call (poll_call op)]
  | S k' => Call (poll_call op) :: Sleep delay :: polls_trace op k'
  end.

(** The remote carries the create of [p] through from state [s1]: it
    answers the create call with an operation id and, when the run waits,
    the operation reaches SUCCESS within the budget, names its target
    namespace, and that namespace can be fetched.  [created] is what the
    create method then returns, [tr] what the run does after the create
    call, [s'] the state the remote is left in. *)
Inductive create_answered (p : module_params) (s1 : St)
  : value -> list event -> St -> Prop :=
| answered_unwaited response s2 op :
    wait p = false ->
    sd (create_call p) s1 = (inr response, s2) ->
    py_getitem response "OperationId" = inr op ->
    create_answered p s1 response [] s2
| answered_waited response s2 op k operationResponse s3 operation targets
    namespace_id got s4 created :
    wait p = true ->
    sd (create_call p) s1 = (inr response, s2) ->
    py_getitem response "OperationId" = inr op ->
    succeeds_at op s2 k ->
    sd (poll_call op) (after_polls op (S k) s2) = (inr operationResponse, s3) ->
    py_getitem operationResponse "Operation" = inr operation ->
    py_getitem operation "Targets" = inr targets ->
    py_getitem targets "NAMESPACE" = inr namespace_id ->
    sd (get_namespace_call [("Id", namespace_id)]) s3 = (inr got, s4) ->
    py_getitem got "Namespace" = inr created ->
    create_answered p s1 created
      (polls_trace op k
       ++ [Call (poll_call op);
           Call (get_namespace_call [("Id", namespace_id)])])
      s4.

(** The remote, asked for the namespaces of that type, answers with the
    summaries [nss]. *)
Definition answers_listing (ty : option string) (s : St) (nss : list value)
  (s1 : St) : Prop :=
  exists d,
    sd (list_namespaces_call [("Filters", expected_filters ty)]) s
    = (inr (VDict d), s1)
    /\ dict_get "Namespaces" d = Some (VList nss).

(** A summary that carries a name, and not [nm]. *)
Definition named_otherwise (nm : string) (ns : value) : Prop :=
  exists d n, ns = VDict d /\ dict_get "Name" d = Some n /\ n <> VStr nm.

(** An answer to a poll that reports the operation's status as SUCCESS. *)
Definition reports_success (r : result value) : Prop :=
  exists d o,
    r = inr (VDict d)
    /\ dict_get "Operation" d = Some (VDict o)
    /\ dict_get "Status" o = Some (VStr "SUCCESS").

(** The error a wait over at most [n] polls of [op] ends with: the
    exhaustion of the attempts, the error a poll raised, or the error
    response a poll answered with (or the error of reading an answer that
    is no dictionary). *)
Definition waiter_error (op : value) (s : St) (n : nat) (e : exn) : Prop :=
  e = WaiterMaxAttempts
  \/ exists i,
       i < n
       /\ (poll_answer op i s = inl e
           \/ exists v,
                poll_answer op i s = inr v
                /\ (e = WaiterErrorResponse v
                    \/ acceptor_matches v = inl e
                    \/ py_contains "Error" v = inl e)).

(** A computation that, whatever the remote answers and however it ends,
    only adds to the record of the run, and adds no create call. *)
Definition adds_no_create {A : Type} (m : M A) : Prop :=
  forall w, exists tr,
    snd (snd (m w)) = snd w ++ tr /\ filter is_create tr = [].

(** A computation that, whatever the remote answers and however it ends,
    only adds to the record of the run, and adds only events that [P]
    accepts. *)
Definition emits_only (P : event -> bool) {A : Type} (m : M A) : Prop :=
  forall w, exists tr,
    snd (snd (m w)) = snd w ++ tr /\ forallb P tr = true.

(** A computation that does not end the process: it returns or raises an
    [Exception]. *)
Definition never_exits {A : Type} (m : M A) : Prop :=
  forall w o w', m w <> (inl (SystemExit o), w').

Definition is_sleep (ev : event) : bool :=
  match ev with
  | Sleep _ => true
  | _ => false
  end.

Definition is_fetch (ev : event) : bool :=
  match ev with
  | Call (get_namespace_call _) => true
  | _ => false
  end.

(** The keyword arguments of a call. *)
Definition call_kwargs (c : call) : pydict :=
  match c with
  | list_namespaces_call kw => kw
  | get_namespace_call kw => kw
  | create_public_dns_namespace_call kw => kw
  | create_private_dns_namespace_call kw => kw
  | get_operation_call kw => kw
  | delete_namespace_call kw => kw
  end.

(** The listing call of a run for [p]. *)
Definition listing_call (p : module_params) : call :=
  list_namespaces_call [("Filters", type_filters (type p))].

(** ** Running the monad *)

Lemma bind_ok {A B : Type} (m : M A) (k : A -> M B) w a w1 res :
  m w = (inr a, w1) -> k a w1 = res -> bind m k w = res.
Proof. intros H1 H2. unfold bind. rewrite H1. exact H2. Qed.

Lemma bind_raised {A B : Type} (m : M A) (k : A -> M B) w r w1 :
  m w = (inl r, w1) -> bind m k w = (inl r, w1).
Proof. intros H. unfold bind. rewrite H. reflexivity. Qed.

Lemma try_ok {A : Type} (body : M A) handler w a w1 :
  body w = (inr a, w1) -> try_except body handler w = (inr a, w1).
Proof. intros H. unfold try_except. rewrite H. reflexivity. Qed.

Lemma try_exit {A : Type} (body : M A) handler w o w1 :
  body w = (inl (SystemExit o), w1) ->
  try_except body handler w = (inl (SystemExit o), w1).
Proof. intros H. unfold try_except. rewrite H. reflexivity. Qed.

Lemma try_caught {A : Type} (body : M A) handler w e w1 res :
  body w = (inl (Exception e), w1) ->
  handler e w1 = res ->
  try_except body handler w = res.
Proof. intros H1 H2. unfold try_except. rewrite H1. exact H2. Qed.

Lemma lift_ok {A : Type} (r : result A) (a : A) w :
  r = inr a -> lift r w = (inr a, w).
Proof. intros ->. reflexivity. Qed.

Lemma lift_raised {A : Type} (r : result A) (e : exn) w :
  r = inl e -> lift r w = (inl (Exception e), w).
Proof. intros ->. reflexivity. Qed.

Lemma run_exited p s o s1 tr :
  main p (s, []) = (inl (SystemExit o), (s1, tr)) ->
  run p s = (Exited o, tr, s1).
Proof. intros H. unfold run. rewrite H. reflexivity. Qed.

Lemma run_traceback p s e s1 tr :
  main p (s, []) = (inl (Exception e), (s1, tr)) ->
  run p s = (Traceback e, tr, s1).
Proof. intros H. unfold run. rewrite H. reflexivity. Qed.

Lemma client_call_eq c s tr r s' :
  sd c s = (r, s') ->
  client_call c (s, tr)
  = (match r with inl e => inl (Exception e) | inr v => inr v end,
     (s', tr ++ [Call c])).
Proof. intros H. unfold client_call. rewrite H. reflexivity. Qed.

(** ** Validation *)

Lemma accepted_present p w :
  state p = "present" -> type_given p -> AnsibleAWSModule p w = (inr p, w).
Proof.
  intros Hs Ht. unfold AnsibleAWSModule, check_argument_values,
    check_required_if, missing_requirements, argument_choices, required_if.
  unfold find, filter, param, fst, snd. simpl String.eqb. cbv iota.
  rewrite Hs. destruct Ht as [Ht | Ht]; rewrite Ht; reflexivity.
Qed.

Lemma accepted_absent p w :
  state p = "absent" -> type_allowed p -> AnsibleAWSModule p w = (inr p, w).
Proof.
  intros Hs Ht. unfold AnsibleAWSModule, check_argument_values,
    check_required_if, missing_requirements, argument_choices, required_if.
  unfold find, filter, param, fst, snd. simpl String.eqb. cbv iota.
  rewrite Hs. destruct Ht as [Ht | [Ht | Ht]]; rewrite Ht; reflexivity.
Qed.

(** ** The lookup *)

Lemma get_namespaces_by_name_lists nm ty s tr nss s1 m :
  lists ty s nss s1 ->
  matching_namespaces nm nss = inr m ->
  get_namespaces_by_name nm ty (s, tr)
  = (inr (Some m),
     (s1, tr ++ [Call (list_namespaces_call [("Filters", type_filters ty)])])).
Proof.
  intros [d [Hcall Hget]] Hm.
  unfold get_namespaces_by_name, list_namespaces.
  eapply bind_ok; [exact (client_call_eq _ _ _ _ _ Hcall) |].
  assert (Ht : py_truthy (VDict d) = true).
  { destruct d; [discriminate Hget | reflexivity]. }
  rewrite Ht. cbn [negb].
  unfold bind, lift, py_getitem, py_iter. rewrite Hget.
  cbn. rewrite Hm. reflexivity.
Qed.

(** The two states of [main]. *)
Lemma main_when_present p s r w :
  state p = "present" ->
  type_given p ->
  main_present p (s, []) = (inl r, w) ->
  main p (s, []) = (inl r, w).
Proof.
  intros Hs Ht H. unfold main.
  eapply bind_ok; [exact (accepted_present p _ Hs Ht) |].
  rewrite Hs. cbn [String.eqb Ascii.eqb Bool.eqb].
  apply bind_raised. exact H.
Qed.

Lemma main_when_absent p s res :
  state p = "absent" ->
  type_allowed p ->
  main_absent p (s, []) = res ->
  main p (s, []) = res.
Proof.
  intros Hs Ht H. unfold main.
  eapply bind_ok; [exact (accepted_absent p _ Hs Ht) |].
  rewrite Hs. cbn [String.eqb Ascii.eqb Bool.eqb].
  eapply bind_ok; [reflexivity |]. exact H.
Qed.





(** ** The absent state *)


(** ** The present state, with the namespace already there *)


(** ** The wait *)

Lemma wait_attempts_succeeds op k : forall more s tr,
  k <= more ->
  (forall i, i < k -> poll_pending (poll_answer op i s)) ->
  poll_succeeds (poll_answer op k s) ->
  wait_attempts more [("OperationId", op)] (s, tr)
  = (inr tt, (after_polls op (S k) s, tr ++ polls_trace op k)).
Proof.
  induction k as [| k IH]; intros more s tr Hle Hpend Hsucc.
  - destruct Hsucc as [v [Hv Hm]]. unfold poll_answer in Hv.
    cbn [after_polls] in *.
    destruct (sd (poll_call op) s) as [r s'] eqn:E. cbn [fst snd] in *.
    subst r. destruct more; cbn [wait_attempts].
    all: eapply bind_ok; [exact (client_call_eq _ _ _ _ _ E) |].
    all: eapply bind_ok; [apply lift_ok; exact Hm |].
    all: reflexivity.
  - destruct more as [| more]; [lia |].
    destruct (Hpend 0 ltac:(lia)) as [v [Hv [Hm He]]].
    unfold poll_answer in Hv. cbn [after_polls] in Hv.
    destruct (sd (poll_call op) s) as [r s'] eqn:E. cbn [fst] in Hv.
    subst r. cbn [wait_attempts].
    eapply bind_ok; [exact (client_call_eq _ _ _ _ _ E) |].
    eapply bind_ok; [apply lift_ok; exact Hm |].
    eapply bind_ok; [apply lift_ok; exact He |].
    eapply bind_ok; [reflexivity |].
    cbn [fst snd].
    rewrite (IH more s' ((tr ++ [Call (poll_call op)]) ++ [Sleep delay])).
    + cbn [after_polls polls_trace]. rewrite E. cbn [snd].
      rewrite <- !app_assoc. reflexivity.
    + lia.
    + intros i Hi. specialize (Hpend (S i) ltac:(lia)).
      unfold poll_answer in *. cbn [after_polls] in Hpend.
      rewrite E in Hpend. exact Hpend.
    + unfold poll_answer in *. cbn [after_polls] in Hsucc.
      rewrite E in Hsucc. exact Hsucc.
Qed.

Lemma waiter_wait_succeeds op k s tr :
  succeeds_at op s k ->
  waiter_wait [("OperationId", op)] (s, tr)
  = (inr tt, (after_polls op (S k) s, tr ++ polls_trace op k)).
Proof.
  intros [Hk [Hpend Hsucc]]. unfold waiter_wait.
  apply wait_attempts_succeeds; [unfold maxAttempts in *; lia | | ];
    assumption.
Qed.

(** C10: a present-state run that finds two or more namespaces of that
    name takes neither the unchanged exit nor the creation path: the only
    remote call it makes is the listing, so no create and no delete call is
    issued and the remote is left in the state the listing left it in; the
    run then ends in an uncaught [TypeError]. *)
Theorem present_with_several_matches_calls_only_list p s nss s1 a b rest :
  state p = "present" ->
  type_given p ->
  lists (type p) s nss s1 ->
  matching_namespaces (name p) nss = inr (a :: b :: rest) ->
  run p s
  = (Traceback TypeError,
     [Call (list_namespaces_call [("Filters", type_filters (type p))])],
     s1)
  /\ filter (fun ev => is_create ev || is_delete ev) (snd (fst (run p s)))
     = [].
Proof.
  intros Hs Ht Hl Hm.
  assert (Hrun : run p s
                 = (Traceback TypeError,
                    [Call (list_namespaces_call
                             [("Filters", type_filters (type p))])],
                    s1)).
  { apply run_traceback, main_when_present; [assumption | assumption |].
    unfold main_present.
    eapply bind_ok; [| reflexivity].
    apply try_ok.
    eapply bind_ok;
      [eapply get_namespaces_by_name_lists; eassumption |].
    eapply bind_ok; [reflexivity |].
    eapply bind_ok; [reflexivity |].
    eapply bind_ok; [reflexivity |].
    reflexivity. }
  split; [exact Hrun |]. rewrite Hrun. reflexivity.
Qed.

(** ** The present state, with no such namespace *)

Lemma dict_get_set_other k k' v d :
  k <> k' -> dict_get k (dict_set k' v d) = dict_get k d.
Proof.
  intros Hne. induction d as [| [k0 v0] t IH]; cbn [dict_set dict_get].
  - destruct (String.eqb_spec k k'); [contradiction | reflexivity].
  - destruct (String.eqb_spec k' k0) as [-> | Hk0]; cbn [dict_get].
    + destruct (String.eqb_spec k k0); [contradiction | reflexivity].
    + rewrite IH. reflexivity.
Qed.

Lemma optional_params_get k c d params :
  k <> "CreatorRequestId" -> k <> "description" ->
  dict_get k (optional_params c d params) = dict_get k params.
Proof.
  intros H1 H2. unfold optional_params.
  destruct (opt_truthy d), (opt_truthy c);
    rewrite ?dict_get_set_other by assumption; reflexivity.
Qed.

Lemma create_call_type_specific p :
  type_given p -> type_specific p (create_call p).
Proof.
  intros [Ht | Ht]; unfold create_call; rewrite Ht; cbn [opt_eq opt_value
    py_eq_str String.eqb Ascii.eqb Bool.eqb type_specific];
    rewrite !optional_params_get by discriminate;
    repeat split; try reflexivity; assumption.
Qed.

Lemma polls_trace_no_create op k :
  filter is_create (polls_trace op k) = [].
Proof. induction k; cbn; auto. Qed.

Lemma create_answered_no_create p s1 created tr s' :
  create_answered p s1 created tr s' -> filter is_create tr = [].
Proof.
  intros H. destruct H; [reflexivity |].
  rewrite filter_app, polls_trace_no_create. reflexivity.
Qed.

Lemma await_namespace_answered p s1 response s2 tr created tr' s' :
  sd (create_call p) s1 = (inr response, s2) ->
  create_answered p s1 created tr' s' ->
  await_namespace response (wait p) (s2, tr) = (inr created, (s', tr ++ tr')).
Proof.
  intros Hc H. unfold await_namespace. destruct H as
    [response' s2' op Hw Hc' Hop
    | response' s2' op k operationResponse s3 operation targets namespace_id
        got s4 created Hw Hc' Hop Hk Hpoll Ho Ht Hn Hget Hns].
  - rewrite Hc in Hc'. inversion Hc'; subst response' s2'.
    eapply bind_ok; [apply lift_ok; exact Hop |].
    rewrite Hw, app_nil_r. reflexivity.
  - rewrite Hc in Hc'. inversion Hc'; subst response' s2'.
    eapply bind_ok; [apply lift_ok; exact Hop |].
    rewrite Hw.
    eapply bind_ok; [apply waiter_wait_succeeds; exact Hk |].
    eapply bind_ok; [exact (client_call_eq _ _ _ _ _ Hpoll) |].
    eapply bind_ok; [apply lift_ok; exact Ho |].
    eapply bind_ok; [apply lift_ok; exact Ht |].
    eapply bind_ok; [apply lift_ok; exact Hn |].
    eapply bind_ok; [exact (client_call_eq _ _ _ _ _ Hget) |].
    rewrite (lift_ok _ _ _ Hns). rewrite <- !app_assoc. reflexivity.
Qed.

Lemma create_answered_call p s1 created tr' s' :
  create_answered p s1 created tr' s' ->
  exists response s2, sd (create_call p) s1 = (inr response, s2).
Proof. intros H; destruct H; eauto. Qed.

Lemma create_namespace_answered p s1 tr created tr' s' json :
  type_given p ->
  create_answered p s1 created tr' s' ->
  jsonize created = inr json ->
  create_namespace (name p) (type p) (description p) (creator_request_id p)
    (vpc_id p) (wait p) (s1, tr)
  = (inr json, (s', tr ++ Call (create_call p) :: tr')).
Proof.
  intros Ht H Hj.
  destruct (create_answered_call _ _ _ _ _ H) as [response [s2 Hc]].
  pose proof (await_namespace_answered p s1 response s2
                (tr ++ [Call (create_call p)]) created tr' s' Hc H) as Ha.
  rewrite <- app_assoc in Ha. cbn [app] in Ha.
  unfold create_namespace, create_call in *.
  destruct Ht as [Ht | Ht]; rewrite Ht in *;
    cbn [opt_eq opt_value py_eq_str String.eqb Ascii.eqb Bool.eqb] in *.
  - eapply bind_ok.
    { eapply bind_ok; [| reflexivity].
      unfold create_private_dns_namespace.
      eapply bind_ok; [exact (client_call_eq _ _ _ _ _ Hc) |]. exact Ha. }
    eapply bind_ok; [reflexivity |]. apply lift_ok. exact Hj.
  - eapply bind_ok; [reflexivity |].
    eapply bind_ok.
    { eapply bind_ok; [| reflexivity].
      unfold create_public_dns_namespace.
      eapply bind_ok; [exact (client_call_eq _ _ _ _ _ Hc) |]. exact Ha. }
    apply lift_ok. exact Hj.
Qed.

Lemma run_creates p s nss s1 created tr s' d :
  state p = "present" ->
  type_given p ->
  lists (type p) s nss s1 ->
  matching_namespaces (name p) nss = inr [] ->
  create_answered p s1 created tr s' ->
  jsonize created = inr (VDict d) ->
  run p s
  = (Exited (ExitJson [("changed", VBool true);
                       ("namespace", snake_value (VDict d))]),
     Call (list_namespaces_call [("Filters", type_filters (type p))])
       :: Call (create_call p) :: tr,
     s').
Proof.
  intros Hs Ht Hl Hm Hc Hj.
  apply run_exited, main_when_present; [assumption | assumption |].
  unfold main_present.
  apply bind_raised, try_exit.
  eapply bind_ok;
    [eapply get_namespaces_by_name_lists; eassumption |].
  eapply bind_ok; [reflexivity |].
  eapply bind_ok; [reflexivity |].
  cbn [not_existing].
  apply bind_raised.
  eapply bind_ok; [eapply create_namespace_answered; eassumption |].
  reflexivity.
Qed.

(** *** Whatever the remote does, one create call *)

Lemma quiet_ret {A : Type} (a : A) : adds_no_create (ret a).
Proof. intros w. exists []. rewrite app_nil_r. split; reflexivity. Qed.

Lemma quiet_raise {A : Type} (e : exn) : adds_no_create (@raise A e).
Proof. intros w. exists []. rewrite app_nil_r. split; reflexivity. Qed.

Lemma quiet_exit_json {A : Type} kwargs : adds_no_create (@exit_json A kwargs).
Proof. intros w. exists []. rewrite app_nil_r. split; reflexivity. Qed.

Lemma quiet_fail_json {A : Type} msg : adds_no_create (@fail_json A msg).
Proof. intros w. exists []. rewrite app_nil_r. split; reflexivity. Qed.

Lemma quiet_lift {A : Type} (r : result A) : adds_no_create (lift r).
Proof. destruct r; [apply quiet_raise | apply quiet_ret]. Qed.

Lemma quiet_bind {A B : Type} (m : M A) (k : A -> M B) :
  adds_no_create m -> (forall a, adds_no_create (k a)) ->
  adds_no_create (bind m k).
Proof.
  intros Hm Hk w. unfold bind.
  destruct (Hm w) as [tr1 [E1 F1]]. destruct (m w) as [[r | a] w1].
  - exists tr1. split; assumption.
  - destruct (Hk a w1) as [tr2 [E2 F2]]. exists (tr1 ++ tr2).
    cbn [snd] in E1. rewrite E2, E1, app_assoc, filter_app, F1, F2.
    split; reflexivity.
Qed.

Lemma quiet_try {A : Type} (body : M A) handler :
  adds_no_create body -> (forall e, adds_no_create (handler e)) ->
  adds_no_create (try_except body handler).
Proof.
  intros Hb Hh w. unfold try_except.
  destruct (Hb w) as [tr1 [E1 F1]]. destruct (body w) as [[[e | o] | a] w1].
  - destruct (Hh e w1) as [tr2 [E2 F2]]. exists (tr1 ++ tr2).
    cbn [snd] in E1. rewrite E2, E1, app_assoc, filter_app, F1, F2.
    split; reflexivity.
  - exists tr1. split; assumption.
  - exists tr1. split; assumption.
Qed.

Lemma quiet_call c :
  is_create (Call c) = false -> adds_no_create (client_call c).
Proof.
  intros Hc [s tr]. unfold client_call. destruct (sd c s) as [r s1].
  exists [Call c]. cbn [snd filter]. rewrite Hc. split; reflexivity.
Qed.

Lemma quiet_sleep n : adds_no_create (sleep n).
Proof. intros w. exists [Sleep n]. split; reflexivity. Qed.

Lemma quiet_wait_attempts kwargs more :
  adds_no_create (wait_attempts more kwargs).
Proof.
  induction more as [| more IH]; cbn [wait_attempts].
  all: apply quiet_bind; [apply quiet_call; reflexivity | intros response].
  all: apply quiet_bind; [apply quiet_lift | intros [|]];
    [apply quiet_ret |].
  all: apply quiet_bind; [apply quiet_lift | intros [|]];
    [apply quiet_raise |].
  - apply quiet_raise.
  - apply quiet_bind; [apply quiet_sleep | intros _; exact IH].
Qed.

Lemma quiet_await_namespace response wait :
  adds_no_create (await_namespace response wait).
Proof.
  unfold await_namespace.
  apply quiet_bind; [apply quiet_lift | intros operation].
  destruct wait; [| apply quiet_ret].
  apply quiet_bind; [apply quiet_wait_attempts | intros _].
  apply quiet_bind; [apply quiet_call; reflexivity | intros r].
  do 3 (apply quiet_bind; [apply quiet_lift | intros ?]).
  apply quiet_bind; [apply quiet_call; reflexivity | intros got].
  apply quiet_lift.
Qed.

Lemma is_create_create_call p : is_create (Call (create_call p)) = true.
Proof.
  unfold create_call. destruct (opt_eq (type p) "DNS_PRIVATE"); reflexivity.
Qed.

(** After its create call, a computation adds no other. *)
Lemma after_create_call {A : Type} c (k : value -> M A) s tr :
  (forall response, adds_no_create (k response)) ->
  exists tr',
    snd (snd (bind (client_call c) k (s, tr))) = tr ++ Call c :: tr'
    /\ filter is_create tr' = [].
Proof.
  intros Hk. unfold bind, client_call. destruct (sd c s) as [[e | v] s1].
  - exists []. split; reflexivity.
  - destruct (Hk v (s1, tr ++ [Call c])) as [tr' [E F]]. exists tr'.
    rewrite E. cbn [snd]. rewrite <- app_assoc. split; [reflexivity | exact F].
Qed.

Lemma create_namespace_creates_once p s tr :
  type_given p ->
  exists tr',
    snd (snd (create_namespace (name p) (type p) (description p)
                (creator_request_id p) (vpc_id p) (wait p) (s, tr)))
    = tr ++ Call (create_call p) :: tr'
    /\ filter is_create tr' = [].
Proof.
  intros Ht.
  assert (Hrest : forall ns : option value,
             adds_no_create (match ns with
                             | Some ns => lift (jsonize ns)
                             | None => raise (UnboundLocalError "namespace")
                             end)).
  { intros [ns |]; [apply quiet_lift | apply quiet_raise]. }
  unfold create_namespace, create_call.
  destruct Ht as [Ht | Ht]; rewrite Ht;
    cbn [opt_eq opt_value py_eq_str String.eqb Ascii.eqb Bool.eqb].
  - unfold create_private_dns_namespace.
    match goal with
    | |- context [bind (bind (bind (client_call ?c) ?k1) ?k2) ?k3 _] =>
        destruct (after_create_call c
                    (fun r => bind (bind (k1 r) k2) k3) s tr)
          as [tr' [E F]]
    end.
    { intros response.
      apply quiet_bind;
        [apply quiet_bind;
           [apply quiet_await_namespace | intros; apply quiet_ret] |].
      intros ns. apply quiet_bind; [apply quiet_ret | apply Hrest]. }
    exists tr'. split; [| exact F]. rewrite <- E.
    unfold bind. destruct (client_call _ (s, tr)) as [[r | v] w]; reflexivity.
  - unfold create_public_dns_namespace.
    match goal with
    | |- context [bind (ret None)
                    (fun _ => bind (bind (bind (client_call ?c) ?k1) ?k2) ?k3)
                    _] =>
        destruct (after_create_call c
                    (fun r => bind (bind (k1 r) k2) k3) s tr)
          as [tr' [E F]]
    end.
    { intros response.
      apply quiet_bind;
        [apply quiet_bind;
           [apply quiet_await_namespace | intros; apply quiet_ret] |].
      apply Hrest. }
    exists tr'. split; [| exact F]. rewrite <- E.
    unfold bind, ret.
    destruct (client_call _ (s, tr)) as [[r | v] w]; reflexivity.
Qed.

Lemma run_creates_once p s nss s1 :
  state p = "present" ->
  type_given p ->
  lists (type p) s nss s1 ->
  matching_namespaces (name p) nss = inr [] ->
  exists out tr s',
    run p s
    = (out,
       Call (list_namespaces_call [("Filters", type_filters (type p))])
         :: Call (create_call p) :: tr,
       s')
    /\ filter is_create tr = [].
Proof.
  intros Hs Ht Hl Hm.
  destruct (create_namespace_creates_once p s1
              [Call (list_namespaces_call
                       [("Filters", type_filters (type p))])] Ht)
    as [tr [E F]].
  destruct (create_namespace (name p) (type p) (description p)
              (creator_request_id p) (vpc_id p) (wait p)
              (s1, [Call (list_namespaces_call
                            [("Filters", type_filters (type p))])]))
    as [rc [s' trc]] eqn:Ec.
  cbn [snd app] in E. subst trc.
  assert (Hmain : exists r,
             main_present p (s, [])
             = (inl r,
                (s', Call (list_namespaces_call
                             [("Filters", type_filters (type p))])
                       :: Call (create_call p) :: tr))).
  { unfold main_present.
    destruct rc as [[e | o] | json].
    - eexists. apply bind_raised.
      eapply try_caught; [| reflexivity].
      eapply bind_ok;
        [eapply get_namespaces_by_name_lists; eassumption |].
      eapply bind_ok; [reflexivity |].
      eapply bind_ok; [reflexivity |].
      cbn [not_existing]. apply bind_raised, bind_raised. exact Ec.
    - eexists. apply bind_raised, try_exit.
      eapply bind_ok;
        [eapply get_namespaces_by_name_lists; eassumption |].
      eapply bind_ok; [reflexivity |].
      eapply bind_ok; [reflexivity |].
      cbn [not_existing]. apply bind_raised, bind_raised. exact Ec.
    - destruct (camel_dict_to_snake_dict json) as [e | snake] eqn:Esn.
      + eexists. apply bind_raised.
        eapply try_caught; [| reflexivity].
        eapply bind_ok;
          [eapply get_namespaces_by_name_lists; eassumption |].
        eapply bind_ok; [reflexivity |].
        eapply bind_ok; [reflexivity |].
        cbn [not_existing]. apply bind_raised.
        eapply bind_ok; [exact Ec |].
        apply bind_raised, lift_raised. exact Esn.
      + eexists. apply bind_raised, try_exit.
        eapply bind_ok;
          [eapply get_namespaces_by_name_lists; eassumption |].
        eapply bind_ok; [reflexivity |].
        eapply bind_ok; [reflexivity |].
        cbn [not_existing]. apply bind_raised.
        eapply bind_ok; [exact Ec |].
        eapply bind_ok; [apply lift_ok; exact Esn |].
        reflexivity. }
  destruct Hmain as [[e | o] Hmain];
    apply main_when_present in Hmain; try assumption.
  - exists (Traceback e), tr, s'. split; [| exact F].
    apply run_traceback. exact Hmain.
  - exists (Exited o), tr, s'. split; [| exact F].
    apply run_exited. exact Hmain.
Qed.

(** Without a wait the run ends right after the create call, and what it
    returns under [namespace] is the response of that call. *)
Lemma unwaited_create_exits_with_response p s nss s1 response s2 op d :
  state p = "present" ->
  type_given p ->
  lists (type p) s nss s1 ->
  matching_namespaces (name p) nss = inr [] ->
  wait p = false ->
  sd (create_call p) s1 = (inr response, s2) ->
  py_getitem response "OperationId" = inr op ->
  jsonize response = inr (VDict d) ->
  run p s
  = (Exited (ExitJson [("changed", VBool true);
                       ("namespace", snake_value (VDict d))]),
     [Call (list_namespaces_call [("Filters", type_filters (type p))]);
      Call (create_call p)],
     s2).
Proof.
  intros Hs Ht Hl Hm Hw Hc Hop Hj.
  eapply run_creates; try eassumption.
  eapply answered_unwaited; eassumption.
Qed.

(** ** The wait that does not see SUCCESS *)

Lemma type_filters_expected ty :
  ty = None \/ ty = Some "DNS_PRIVATE" \/ ty = Some "DNS_PUBLIC" ->
  type_filters ty = expected_filters ty.
Proof. intros [-> | [-> | ->]]; reflexivity. Qed.

Lemma answers_listing_lists p s nss s1 :
  type_allowed p -> answers_listing (type p) s nss s1 ->
  lists (type p) s nss s1.
Proof.
  intros Ht [d [H1 H2]]. exists d. split; [| exact H2].
  rewrite type_filters_expected; [exact H1 |].
  destruct Ht as [Ht | [Ht | Ht]]; auto.
Qed.

Lemma named_otherwise_no_match nm nss :
  Forall (named_otherwise nm) nss -> matching_namespaces nm nss = inr [].
Proof.
  induction 1 as [| ns nss [d [n [-> [Hn Hne]]]] _ IH]; [reflexivity |].
  cbn [matching_namespaces py_getitem]. rewrite Hn, IH. cbn [rbind].
  destruct n; cbn [py_eq_str]; try reflexivity.
  destruct (String.eqb_spec s nm) as [-> | _]; [| reflexivity].
  exfalso. apply Hne. reflexivity.
Qed.

Lemma poll_succeeds_reports r : poll_succeeds r -> reports_success r.
Proof.
  intros [v [-> Hm]]. unfold acceptor_matches, rbind in Hm.
  destruct (py_contains "Error" v) as [e | [|]]; try discriminate.
  inversion Hm as [Hs]. clear Hm.
  unfold acceptor_argument, acceptor_expected in Hs.
  cbn [jmespath_search] in Hs.
  destruct v as [| | | | | | d]; try discriminate.
  destruct (dict_get "Operation" d) as [x |] eqn:Ex; [| discriminate].
  destruct x as [| | | | | | o]; try discriminate.
  destruct (dict_get "Status" o) as [st |] eqn:Est; [| discriminate].
  destruct st as [| | | st | | |]; try discriminate.
  cbn [py_eq_str] in Hs. apply String.eqb_eq in Hs. subst st.
  exists d, o. auto.
Qed.

Lemma waiter_error_later op s n e :
  waiter_error op (snd (sd (poll_call op) s)) n e ->
  waiter_error op s (S n) e.
Proof.
  intros [H | [i [Hi H]]]; [left; exact H |].
  right. exists (S i). split; [lia |].
  unfold poll_answer in *. cbn [after_polls]. exact H.
Qed.

Lemma wait_attempts_fails op : forall more s tr,
  (forall i, i <= more -> ~ poll_succeeds (poll_answer op i s)) ->
  exists e s' tr',
    wait_attempts more [("OperationId", op)] (s, tr)
    = (inl (Exception e), (s', tr ++ tr'))
    /\ waiter_error op s (S more) e
    /\ List.length (filter is_poll tr') <= S more.
Proof.
  induction more as [| more IH]; intros s tr Hnever.
  all: pose proof (Hnever 0 ltac:(lia)) as H0.
  all: unfold poll_answer in H0; cbn [after_polls] in H0.
  all: assert (Hat : forall r, fst (sd (poll_call op) s) = r ->
                               poll_answer op 0 s = r)
         by (intros r Hr; exact Hr).
  all: destruct (sd (poll_call op) s) as [[e | v] s1] eqn:E;
    cbn [fst] in H0, Hat.
  all: cbn [wait_attempts].
  all: try (exists e, s1, [Call (poll_call op)];
            split; [| split; [| cbn; lia]];
            [ apply bind_raised; exact (client_call_eq _ _ _ _ _ E)
            | right; exists 0; split; [lia | left; apply Hat; reflexivity]]).
  all: destruct (acceptor_matches v) as [e | [|]] eqn:Em.
  all: try (exfalso; apply H0; exists v; split; [reflexivity | exact Em]).
  all: try (exists e, s1, [Call (poll_call op)];
            split; [| split; [| cbn; lia]];
            [ eapply bind_ok; [exact (client_call_eq _ _ _ _ _ E) |];
              apply bind_raised, lift_raised; exact Em
            | right; exists 0; split; [lia |]; right; exists v;
              split; [apply Hat; reflexivity | right; left; exact Em]]).
  all: destruct (py_contains "Error" v) as [e | [|]] eqn:Ee.
  all: try (exists e, s1, [Call (poll_call op)];
            split; [| split; [| cbn; lia]];
            [ eapply bind_ok; [exact (client_call_eq _ _ _ _ _ E) |];
              eapply bind_ok; [apply lift_ok; exact Em |];
              apply bind_raised, lift_raised; exact Ee
            | right; exists 0; split; [lia |]; right; exists v;
              split; [apply Hat; reflexivity | right; right; exact Ee]]).
  all: try (exists (WaiterErrorResponse v), s1, [Call (poll_call op)];
            split; [| split; [| cbn; lia]];
            [ eapply bind_ok; [exact (client_call_eq _ _ _ _ _ E) |];
              eapply bind_ok; [apply lift_ok; exact Em |];
              eapply bind_ok; [apply lift_ok; exact Ee |];
              reflexivity
            | right; exists 0; split; [lia |]; right; exists v;
              split; [apply Hat; reflexivity | left; reflexivity]]).
  - exists WaiterMaxAttempts, s1, [Call (poll_call op)].
    split; [| split; [left; reflexivity | cbn; lia]].
    eapply bind_ok; [exact (client_call_eq _ _ _ _ _ E) |].
    eapply bind_ok; [apply lift_ok; exact Em |].
    eapply bind_ok; [apply lift_ok; exact Ee |].
    reflexivity.
  - destruct (IH s1 ((tr ++ [Call (poll_call op)]) ++ [Sleep delay]))
      as [e [s' [tr' [Hw [Herr Hlen]]]]].
    { intros i Hi. specialize (Hnever (S i) ltac:(lia)).
      unfold poll_answer in *. cbn [after_polls] in Hnever.
      rewrite E in Hnever. exact Hnever. }
    exists e, s', (Call (poll_call op) :: Sleep delay :: tr').
    split; [| split; [| cbn; lia]].
    + eapply bind_ok; [exact (client_call_eq _ _ _ _ _ E) |].
      eapply bind_ok; [apply lift_ok; exact Em |].
      eapply bind_ok; [apply lift_ok; exact Ee |].
      eapply bind_ok; [reflexivity |].
      cbn [fst snd]. rewrite Hw, <- !app_assoc. reflexivity.
    + apply waiter_error_later. rewrite E. exact Herr.
Qed.

Lemma create_namespace_raises p s1 tr response s2 r w :
  type_given p ->
  sd (create_call p) s1 = (inr response, s2) ->
  await_namespace response (wait p) (s2, tr ++ [Call (create_call p)])
  = (inl r, w) ->
  create_namespace (name p) (type p) (description p) (creator_request_id p)
    (vpc_id p) (wait p) (s1, tr)
  = (inl r, w).
Proof.
  intros Ht Hc Ha. unfold create_namespace, create_call in *.
  destruct Ht as [Ht | Ht]; rewrite Ht in *;
    cbn [opt_eq opt_value py_eq_str String.eqb Ascii.eqb Bool.eqb] in *.
  - apply bind_raised, bind_raised.
    unfold create_private_dns_namespace.
    eapply bind_ok; [exact (client_call_eq _ _ _ _ _ Hc) |]. exact Ha.
  - eapply bind_ok; [reflexivity |].
    apply bind_raised, bind_raised.
    unfold create_public_dns_namespace.
    eapply bind_ok; [exact (client_call_eq _ _ _ _ _ Hc) |]. exact Ha.
Qed.

Lemma run_create_raises p s nss s1 e s' tr :
  state p = "present" ->
  type_given p ->
  lists (type p) s nss s1 ->
  matching_namespaces (name p) nss = inr [] ->
  create_namespace (name p) (type p) (description p) (creator_request_id p)
    (vpc_id p) (wait p)
    (s1, [Call (list_namespaces_call [("Filters", type_filters (type p))])])
  = (inl (Exception e), (s', tr)) ->
  run p s = (Exited (FailJson (failure_message p e)), tr, s').
Proof.
  intros Hs Ht Hl Hm Hc.
  apply run_exited, main_when_present; [assumption | assumption |].
  unfold main_present.
  apply bind_raised.
  eapply try_caught; [| reflexivity].
  eapply bind_ok;
    [eapply get_namespaces_by_name_lists; eassumption |].
  eapply bind_ok; [reflexivity |].
  eapply bind_ok; [reflexivity |].
  cbn [not_existing].
  apply bind_raised, bind_raised. exact Hc.
Qed.

(** C7: when a waited-for create is answered with an operation that none
    of the ten polls reports as SUCCESS, the run ends in [fail_json], never
    in [exit_json]; the message is "Exception '<name>': " followed by
    [str] of the error the wait ended with (the exhaustion of the
    attempts, the error of a poll, or an error response), and no more than
    ten polls were made. *)
Theorem wait_without_success_fails p s nss s1 response s2 op :
  state p = "present" ->
  type_given p ->
  answers_listing (type p) s nss s1 ->
  Forall (named_otherwise (name p)) nss ->
  wait p = true ->
  sd (create_call p) s1 = (inr response, s2) ->
  py_getitem response "OperationId" = inr op ->
  (forall i, i < 10 -> ~ reports_success (poll_answer op i s2)) ->
  exists e events s',
    run p s
    = (Exited (FailJson ("Exception '" ++ name p ++ "': " ++ exn_str e)%string),
       events, s')
    /\ waiter_error op s2 10 e
    /\ List.length (filter is_poll events) <= 10.
Proof.
  intros Hs Ht Hl Hm Hw Hc Hop Hnever.
  assert (Hl' : lists (type p) s nss s1)
    by (apply answers_listing_lists; [right; exact Ht | exact Hl]).
  apply named_otherwise_no_match in Hm.
  destruct (wait_attempts_fails op (maxAttempts - 1) s2
              ([Call (list_namespaces_call
                        [("Filters", type_filters (type p))])]
               ++ [Call (create_call p)]))
    as [e [s' [tr' [Hwait [Herr Hlen]]]]].
  { intros i Hi Hsucc. apply (Hnever i).
    - unfold maxAttempts in Hi. lia.
    - apply poll_succeeds_reports. exact Hsucc. }
  exists e, (([Call (list_namespaces_call
                       [("Filters", type_filters (type p))])]
              ++ [Call (create_call p)]) ++ tr'), s'.
  split; [| split].
  - change (FailJson ("Exception '" ++ name p ++ "': " ++ exn_str e)%string)
      with (FailJson (failure_message p e)).
    eapply run_create_raises; try eassumption.
    eapply create_namespace_raises; try eassumption.
    unfold await_namespace.
    eapply bind_ok; [apply lift_ok; exact Hop |].
    rewrite Hw. apply bind_raised. exact Hwait.
  - exact Herr.
  - rewrite filter_app.
    assert (Hc0 : is_poll (Call (create_call p)) = false).
    { unfold create_call. destruct (opt_eq (type p) "DNS_PRIVATE");
        reflexivity. }
    cbn [app filter is_poll]. fold (is_poll (Call (create_call p))).
    rewrite Hc0. cbn [app]. unfold maxAttempts in *. cbn in Hlen. lia.
Qed.

(** ** When the remote fails, or answers out of shape *)

(** The state is one of the two, with a type the validation lets through. *)
Lemma main_when_accepted p s r w :
  (state p = "present" /\ type_given p)
  \/ (state p = "absent" /\ type_allowed p) ->
  (state p = "present" -> main_present p (s, []) = (inl r, w)) ->
  (state p = "absent" -> main_absent p (s, []) = (inl r, w)) ->
  main p (s, []) = (inl r, w).
Proof.
  intros [[Hs Ht] | [Hs Ht]] Hp Ha.
  - apply main_when_present; auto.
  - apply main_when_absent; auto.
Qed.

Lemma get_namespaces_by_name_raises nm ty s tr e s1 :
  sd (list_namespaces_call [("Filters", type_filters ty)]) s = (inl e, s1) ->
  get_namespaces_by_name nm ty (s, tr)
  = (inl (Exception e),
     (s1, tr ++ [Call (list_namespaces_call [("Filters", type_filters ty)])])).
Proof.
  intros Hcall. unfold get_namespaces_by_name, list_namespaces.
  apply bind_raised. exact (client_call_eq _ _ _ _ _ Hcall).
Qed.

Lemma get_namespaces_by_name_none nm ty s tr v s1 :
  sd (list_namespaces_call [("Filters", type_filters ty)]) s = (inr v, s1) ->
  py_truthy v = false ->
  get_namespaces_by_name nm ty (s, tr)
  = (inr None,
     (s1, tr ++ [Call (list_namespaces_call [("Filters", type_filters ty)])])).
Proof.
  intros Hcall Hv. unfold get_namespaces_by_name, list_namespaces.
  eapply bind_ok; [exact (client_call_eq _ _ _ _ _ Hcall) |].
  rewrite Hv. reflexivity.
Qed.

(** X1: when the listing call raises, a run of either state ends in
    [fail_json] with the message built from the name and that error, and
    has made no other call. *)
Theorem listing_error_is_reported p s e s1 :
  (state p = "present" /\ type_given p)
  \/ (state p = "absent" /\ type_allowed p) ->
  sd (list_namespaces_call [("Filters", type_filters (type p))]) s
  = (inl e, s1) ->
  run p s
  = (Exited (FailJson (failure_message p e)),
     [Call (list_namespaces_call [("Filters", type_filters (type p))])],
     s1).
Proof.
  intros Hacc Hcall. apply run_exited, main_when_accepted; [exact Hacc | |].
  - intros _. unfold main_present. apply bind_raised.
    eapply try_caught; [| reflexivity].
    apply bind_raised. apply get_namespaces_by_name_raises. exact Hcall.
  - intros _. unfold main_absent.
    eapply try_caught; [| reflexivity].
    apply bind_raised. apply get_namespaces_by_name_raises. exact Hcall.
Qed.

(** X2: a listing response that is falsy (an empty dictionary, [None])
    makes the lookup return [None]; [len(None)], or [None[0]] in the
    absent state, raises [TypeError] and the run ends in [fail_json]
    without a create or delete call. *)
Theorem falsy_listing_fails p s v s1 :
  (state p = "present" /\ type_given p)
  \/ (state p = "absent" /\ type_allowed p) ->
  sd (list_namespaces_call [("Filters", type_filters (type p))]) s
  = (inr v, s1) ->
  py_truthy v = false ->
  run p s
  = (Exited (FailJson (failure_message p TypeError)),
     [Call (list_namespaces_call [("Filters", type_filters (type p))])],
     s1).
Proof.
  intros Hacc Hcall Hv. apply run_exited, main_when_accepted;
    [exact Hacc | |].
  - intros _. unfold main_present. apply bind_raised.
    eapply try_caught; [| reflexivity].
    eapply bind_ok;
      [eapply get_namespaces_by_name_none; eassumption |].
    apply bind_raised. reflexivity.
  - intros _. unfold main_absent.
    eapply try_caught; [| reflexivity].
    eapply bind_ok;
      [eapply get_namespaces_by_name_none; eassumption |].
    apply bind_raised. reflexivity.
Qed.

Lemma run_deletes_first p s nss s1 first rest id resp s2 :
  state p = "absent" ->
  type_allowed p ->
  lists (type p) s nss s1 ->
  matching_namespaces (name p) nss = inr (first :: rest) ->
  py_getitem first "Id" = inr id ->
  sd (delete_namespace_call [("Id", id)]) s1 = (inr resp, s2) ->
  run p s
  = (Exited (ExitJson [("changed", VBool true)]),
     [Call (list_namespaces_call [("Filters", type_filters (type p))]);
      Call (delete_namespace_call [("Id", id)])],
     s2).
Proof.
  intros Hs Ht Hl Hm Hid Hdel.
  apply run_exited, main_when_absent; [assumption | assumption |].
  unfold main_absent.
  apply try_exit.
  eapply bind_ok;
    [eapply get_namespaces_by_name_lists; eassumption |].
  eapply bind_ok; [reflexivity |].
  eapply bind_ok; [apply lift_ok; exact Hid |].
  eapply bind_ok; [exact (client_call_eq _ _ _ _ _ Hdel) |].
  reflexivity.
Qed.

(** X3: an absent-state run that finds several namespaces of that name
    deletes the first of them and no other: one delete call, with the id
    of the first match, then [changed=True]. *)
Theorem absent_with_several_matches_deletes_the_first
  p s nss s1 first rest id resp s2 :
  state p = "absent" ->
  type_allowed p ->
  lists (type p) s nss s1 ->
  matching_namespaces (name p) nss = inr (first :: rest) ->
  py_getitem first "Id" = inr id ->
  sd (delete_namespace_call [("Id", id)]) s1 = (inr resp, s2) ->
  run p s
  = (Exited (ExitJson [("changed", VBool true)]),
     [Call (list_namespaces_call [("Filters", type_filters (type p))]);
      Call (delete_namespace_call [("Id", id)])],
     s2).
Proof. apply run_deletes_first. Qed.

(** X4: when the delete call raises, the absent-state run ends in
    [fail_json] with the message built from the name and that error; the
    delete was attempted once and not retried. *)
Theorem delete_error_is_reported p s nss s1 first rest id e s2 :
  state p = "absent" ->
  type_allowed p ->
  lists (type p) s nss s1 ->
  matching_namespaces (name p) nss = inr (first :: rest) ->
  py_getitem first "Id" = inr id ->
  sd (delete_namespace_call [("Id", id)]) s1 = (inl e, s2) ->
  run p s
  = (Exited (FailJson (failure_message p e)),
     [Call (list_namespaces_call [("Filters", type_filters (type p))]);
      Call (delete_namespace_call [("Id", id)])],
     s2).
Proof.
  intros Hs Ht Hl Hm Hid Hdel.
  apply run_exited, main_when_absent; [assumption | assumption |].
  unfold main_absent.
  eapply try_caught; [| reflexivity].
  eapply bind_ok;
    [eapply get_namespaces_by_name_lists; eassumption |].
  eapply bind_ok; [reflexivity |].
  eapply bind_ok; [apply lift_ok; exact Hid |].
  apply bind_raised. exact (client_call_eq _ _ _ _ _ Hdel).
Qed.

(** X5: when the one matching namespace is fetched and the response
    holds a falsy [Namespace], [get_namespace] returns [None], the key
    conversion of [None] raises, and the present-state run ends in
    [fail_json]; it does not fall back to creating. *)
Theorem empty_namespace_fails p s nss s1 ns id resp s2 namespace :
  state p = "present" ->
  type_given p ->
  lists (type p) s nss s1 ->
  matching_namespaces (name p) nss = inr [ns] ->
  py_getitem ns "Id" = inr id ->
  sd (get_namespace_call [("Id", id)]) s1 = (inr resp, s2) ->
  py_getitem resp "Namespace" = inr namespace ->
  py_truthy namespace = false ->
  run p s
  = (Exited (FailJson (failure_message p AttributeError)),
     [Call (list_namespaces_call [("Filters", type_filters (type p))]);
      Call (get_namespace_call [("Id", id)])],
     s2).
Proof.
  intros Hs Ht Hl Hm Hid Hget Hns Hfalsy.
  apply run_exited, main_when_present; [assumption | assumption |].
  unfold main_present. apply bind_raised.
  eapply try_caught; [| reflexivity].
  eapply bind_ok;
    [eapply get_namespaces_by_name_lists; eassumption |].
  eapply bind_ok; [reflexivity |].
  cbn [List.length Nat.eqb].
  apply bind_raised.
  eapply bind_ok; [reflexivity |].
  eapply bind_ok; [apply lift_ok; exact Hid |].
  eapply bind_ok.
  { unfold get_namespace.
    eapply bind_ok; [exact (client_call_eq _ _ _ _ _ Hget) |].
    eapply bind_ok; [apply lift_ok; exact Hns |].
    rewrite Hfalsy. reflexivity. }
  apply bind_raised. reflexivity.
Qed.

(** ** What a run never does *)

Lemma only_ret P {A : Type} (a : A) : emits_only P (ret a).
Proof. intros w. exists []. rewrite app_nil_r. split; reflexivity. Qed.

Lemma only_raise P {A : Type} (e : exn) : emits_only P (@raise A e).
Proof. intros w. exists []. rewrite app_nil_r. split; reflexivity. Qed.

Lemma only_exit_json P {A : Type} kwargs : emits_only P (@exit_json A kwargs).
Proof. intros w. exists []. rewrite app_nil_r. split; reflexivity. Qed.

Lemma only_fail_json P {A : Type} msg : emits_only P (@fail_json A msg).
Proof. intros w. exists []. rewrite app_nil_r. split; reflexivity. Qed.

Lemma only_lift P {A : Type} (r : result A) : emits_only P (lift r).
Proof. destruct r; [apply only_raise | apply only_ret]. Qed.

Lemma only_bind P {A B : Type} (m : M A) (k : A -> M B) :
  emits_only P m -> (forall a, emits_only P (k a)) ->
  emits_only P (bind m k).
Proof.
  intros Hm Hk w. unfold bind.
  destruct (Hm w) as [tr1 [E1 F1]]. destruct (m w) as [[r | a] w1].
  - exists tr1. split; assumption.
  - destruct (Hk a w1) as [tr2 [E2 F2]]. exists (tr1 ++ tr2).
    cbn [snd] in E1. rewrite E2, E1, app_assoc, forallb_app, F1, F2.
    split; reflexivity.
Qed.

Lemma only_try P {A : Type} (body : M A) handler :
  emits_only P body -> (forall e, emits_only P (handler e)) ->
  emits_only P (try_except body handler).
Proof.
  intros Hb Hh w. unfold try_except.
  destruct (Hb w) as [tr1 [E1 F1]]. destruct (body w) as [[[e | o] | a] w1].
  - destruct (Hh e w1) as [tr2 [E2 F2]]. exists (tr1 ++ tr2).
    cbn [snd] in E1. rewrite E2, E1, app_assoc, forallb_app, F1, F2.
    split; reflexivity.
  - exists tr1. split; assumption.
  - exists tr1. split; assumption.
Qed.

Lemma only_call P c : P (Call c) = true -> emits_only P (client_call c).
Proof.
  intros Hc [s tr]. unfold client_call. destruct (sd c s) as [r s1].
  exists [Call c]. cbn [snd forallb]. rewrite Hc. split; reflexivity.
Qed.

Lemma only_sleep P n : P (Sleep n) = true -> emits_only P (sleep n).
Proof.
  intros Hn w. exists [Sleep n]. cbn [forallb]. rewrite Hn.
  split; reflexivity.
Qed.

Lemma only_wait_attempts P kwargs more :
  P (Call (get_operation_call kwargs)) = true ->
  P (Sleep delay) = true ->
  emits_only P (wait_attempts more kwargs).
Proof.
  intros Hp Hs. induction more as [| more IH]; cbn [wait_attempts].
  all: apply only_bind; [apply only_call; exact Hp | intros response].
  all: apply only_bind; [apply only_lift | intros [|]];
    [apply only_ret |].
  all: apply only_bind; [apply only_lift | intros [|]];
    [apply only_raise |].
  - apply only_raise.
  - apply only_bind; [apply only_sleep; exact Hs | intros _; exact IH].
Qed.

Lemma only_await_namespace P response wait :
  (forall kw, P (Call (get_operation_call kw)) = true) ->
  (forall kw, P (Call (get_namespace_call kw)) = true) ->
  (forall n, P (Sleep n) = true) ->
  emits_only P (await_namespace response wait).
Proof.
  intros Hp Hg Hs. unfold await_namespace.
  apply only_bind; [apply only_lift | intros operation].
  destruct wait; [| apply only_ret].
  apply only_bind; [apply only_wait_attempts; auto | intros _].
  apply only_bind; [apply only_call; auto | intros r].
  do 3 (apply only_bind; [apply only_lift | intros ?]).
  apply only_bind; [apply only_call; auto | intros got].
  apply only_lift.
Qed.

Lemma only_get_namespaces_by_name P nm ty :
  (forall kw, P (Call (list_namespaces_call kw)) = true) ->
  emits_only P (get_namespaces_by_name nm ty).
Proof.
  intros Hl. unfold get_namespaces_by_name, list_namespaces.
  apply only_bind; [apply only_call; auto | intros namespaces].
  destruct (negb (py_truthy namespaces)); [apply only_ret |].
  do 3 (apply only_bind; [apply only_lift | intros ?]).
  apply only_ret.
Qed.

Lemma only_get_namespace P id :
  (forall kw, P (Call (get_namespace_call kw)) = true) ->
  emits_only P (get_namespace id).
Proof.
  intros Hg. unfold get_namespace.
  apply only_bind; [apply only_call; auto | intros response].
  apply only_bind; [apply only_lift | intros namespace].
  destruct (negb (py_truthy namespace)); [apply only_ret | apply only_lift].
Qed.

Lemma only_create_namespace P nm ty d c v w :
  (forall kw, P (Call (create_public_dns_namespace_call kw)) = true) ->
  (forall kw, P (Call (create_private_dns_namespace_call kw)) = true) ->
  (forall kw, P (Call (get_operation_call kw)) = true) ->
  (forall kw, P (Call (get_namespace_call kw)) = true) ->
  (forall n, P (Sleep n) = true) ->
  emits_only P (create_namespace nm ty d c v w).
Proof.
  intros Hpub Hpriv Hp Hg Hs. unfold create_namespace.
  apply only_bind.
  { destruct (opt_eq ty "DNS_PRIVATE"); [| apply only_ret].
    apply only_bind; [| intros; apply only_ret].
    unfold create_private_dns_namespace.
    apply only_bind; [apply only_call; auto | intros r].
    apply only_await_namespace; auto. }
  intros namespace. apply only_bind.
  { destruct (opt_eq ty "DNS_PUBLIC"); [| apply only_ret].
    apply only_bind; [| intros; apply only_ret].
    unfold create_public_dns_namespace.
    apply only_bind; [apply only_call; auto | intros r].
    apply only_await_namespace; auto. }
  intros [ns |]; [apply only_lift | apply only_raise].
Qed.

Lemma only_main_present P p :
  (forall c, is_delete (Call c) = false -> P (Call c) = true) ->
  (forall n, P (Sleep n) = true) ->
  emits_only P (main_present p).
Proof.
  intros Hc Hs. unfold main_present.
  apply only_bind; [| intros; apply only_raise].
  apply only_try; [| intros; apply only_fail_json].
  apply only_bind;
    [apply only_get_namespaces_by_name; intros; apply Hc; reflexivity |].
  intros existing.
  apply only_bind; [apply only_lift | intros n].
  apply only_bind.
  { destruct (Nat.eqb n 1); [| apply only_ret].
    do 2 (apply only_bind; [apply only_lift | intros ?]).
    apply only_bind;
      [apply only_get_namespace; intros; apply Hc; reflexivity |].
    intros namespace.
    apply only_bind; [apply only_lift | intros ?]. apply only_exit_json. }
  intros _. apply only_bind; [| intros; apply only_ret].
  destruct (not_existing existing); [| apply only_ret].
  apply only_bind.
  { apply only_create_namespace; intros; try apply Hc; auto. }
  intros namespace.
  apply only_bind; [apply only_lift | intros ?]. apply only_exit_json.
Qed.

Lemma only_main_absent P p :
  (forall kw, P (Call (list_namespaces_call kw)) = true) ->
  (forall kw, P (Call (delete_namespace_call kw)) = true) ->
  emits_only P (main_absent p).
Proof.
  intros Hl Hd. unfold main_absent.
  apply only_try; [| intros; apply only_fail_json].
  apply only_bind; [apply only_get_namespaces_by_name; exact Hl |].
  intros existing.
  do 2 (apply only_bind; [apply only_lift | intros ?]).
  apply only_bind; [apply only_call; apply Hd | intros _].
  apply only_exit_json.
Qed.

Lemma only_AnsibleAWSModule P p : emits_only P (AnsibleAWSModule p).
Proof.
  unfold AnsibleAWSModule.
  destruct (check_argument_values p).
  - intros w. exists []. rewrite app_nil_r. split; reflexivity.
  - destruct (check_required_if p); [| apply only_ret].
    intros w. exists []. rewrite app_nil_r. split; reflexivity.
Qed.

(** The validation hands back the parameters it was given. *)
Lemma AnsibleAWSModule_returns p w q w1 :
  AnsibleAWSModule p w = (inr q, w1) -> q = p.
Proof.
  unfold AnsibleAWSModule.
  destruct (check_argument_values p); [discriminate |].
  destruct (check_required_if p); [discriminate |].
  intros H; inversion H; reflexivity.
Qed.

Lemma run_trace p s :
  snd (fst (run p s)) = snd (snd (main p (s, []))).
Proof.
  unfold run. destruct (main p (s, [])) as [[[e | o] | u] [s1 tr]];
    reflexivity.
Qed.

Lemma only_main P p :
  (state p = "present" -> emits_only P (main_present p)) ->
  (state p = "absent" -> emits_only P (main_absent p)) ->
  emits_only P (main p).
Proof.
  intros Hp Ha w. unfold main, bind.
  destruct (only_AnsibleAWSModule P p w) as [tr0 [E0 F0]].
  destruct (AnsibleAWSModule p w) as [[r | q] w0] eqn:Ev.
  - exists tr0. split; assumption.
  - apply AnsibleAWSModule_returns in Ev. subst q.
    assert (H1 : emits_only P
                   (if String.eqb (state p) "present"
                    then main_present p else ret tt)).
    { destruct (String.eqb_spec (state p) "present");
        [apply Hp; assumption | apply only_ret]. }
    assert (H2 : emits_only P
                   (if String.eqb (state p) "absent"
                    then main_absent p else ret tt)).
    { destruct (String.eqb_spec (state p) "absent");
        [apply Ha; assumption | apply only_ret]. }
    destruct (H1 w0) as [tr1 [E1 F1]].
    destruct ((if String.eqb (state p) "present"
               then main_present p else ret tt) w0) as [[r | u] w1].
    + exists (tr0 ++ tr1). cbn [snd] in *.
      rewrite E1, E0, app_assoc, forallb_app, F0, F1. split; reflexivity.
    + destruct (H2 w1) as [tr2 [E2 F2]].
      exists (tr0 ++ tr1 ++ tr2). cbn [snd] in *.
      rewrite E2, E1, E0, !app_assoc, !forallb_app, F0, F1, F2.
      split; reflexivity.
Qed.

(** X6: a present-state run never issues a delete call, whatever the
    input and whatever the remote answers. *)
Theorem present_never_deletes p s :
  state p = "present" ->
  filter is_delete (snd (fst (run p s))) = [].
Proof.
  intros Hs. rewrite run_trace.
  destruct (only_main (fun ev => negb (is_delete ev)) p) with (w := (s, @nil event))
    as [tr [E F]].
  - intros _. apply only_main_present.
    + intros c Hc. rewrite Hc. reflexivity.
    + reflexivity.
  - intros Ha. rewrite Hs in Ha. discriminate.
  - rewrite E. cbn [snd app]. clear E.
    induction tr as [| ev tr IH]; [reflexivity |].
    cbn [forallb] in F. apply andb_prop in F. destruct F as [F1 F2].
    cbn [filter]. destruct (is_delete ev); [discriminate |]. auto.
Qed.

(** X7: an absent-state run issues nothing but the listing call and
    delete calls: it never creates, never polls an operation, never
    fetches a namespace and never sleeps, whatever the input and whatever
    the remote answers. *)
Theorem absent_only_lists_and_deletes p s :
  state p = "absent" ->
  forallb (fun ev => match ev with
                     | Call (list_namespaces_call _) => true
                     | Call (delete_namespace_call _) => true
                     | _ => false
                     end) (snd (fst (run p s))) = true.
Proof.
  intros Hs. rewrite run_trace.
  match goal with
  | |- forallb ?P _ = true =>
      destruct (only_main P p) with (w := (s, @nil event)) as [tr [E F]]
  end.
  - intros Hp. rewrite Hs in Hp. discriminate.
  - intros _. apply only_main_absent; reflexivity.
  - rewrite E. exact F.
Qed.

(** ** The wait, counted *)

Lemma wait_attempts_bounded kwargs : forall more w,
  exists tr,
    snd (snd (wait_attempts more kwargs w)) = snd w ++ tr
    /\ Forall (fun ev => ev = Call (get_operation_call kwargs)
                         \/ ev = Sleep delay) tr
    /\ List.length (filter is_poll tr) <= S more
    /\ List.length (filter is_sleep tr) + 1 = List.length (filter is_poll tr).
Proof.
  induction more as [| more IH]; intros [s tr0]; cbn [wait_attempts].
  all: unfold bind at 1; unfold client_call at 1.
  all: destruct (sd (get_operation_call kwargs) s) as [[e | v] s1].
  all: try (exists [Call (get_operation_call kwargs)];
            repeat split; cbn; auto; lia).
  all: unfold bind at 1;
    destruct (acceptor_matches v) as [e | [|]]; cbn [lift raise ret].
  all: try (exists [Call (get_operation_call kwargs)];
            repeat split; cbn; auto; lia).
  all: unfold bind at 1;
    destruct (py_contains "Error" v) as [e | [|]]; cbn [lift raise ret].
  all: try (exists [Call (get_operation_call kwargs)];
            repeat split; cbn; auto; lia).
  unfold bind at 1. unfold sleep at 1. cbn [fst snd].
  destruct (IH (s1, (tr0 ++ [Call (get_operation_call kwargs)])
                    ++ [Sleep delay]))
    as [tr [E [Hall [Hle Heq]]]].
  exists (Call (get_operation_call kwargs) :: Sleep delay :: tr).
  rewrite E. cbn [snd]. rewrite <- !app_assoc. cbn [app].
  split; [reflexivity |]. split; [auto |].
  cbn [filter is_poll is_sleep List.length]. split; lia.
Qed.

(** X8: whatever the remote answers, a wait polls the operation at most
    [maxAttempts] = 10 times, does nothing else than polling and sleeping
    [delay] = 5, and sleeps between polls only: one sleep fewer than
    polls. *)
Theorem waiter_wait_bounded kwargs w :
  exists tr,
    snd (snd (waiter_wait kwargs w)) = snd w ++ tr
    /\ Forall (fun ev => ev = Call (get_operation_call kwargs)
                         \/ ev = Sleep 5%Z) tr
    /\ List.length (filter is_poll tr) <= 10
    /\ List.length (filter is_sleep tr) + 1 = List.length (filter is_poll tr).
Proof. exact (wait_attempts_bounded kwargs (maxAttempts - 1) w). Qed.

Lemma polls_trace_counts op k :
  filter is_fetch (polls_trace op k) = []
  /\ List.length (filter is_poll (polls_trace op k)) = S k
  /\ List.length (filter is_sleep (polls_trace op k)) = k.
Proof.
  induction k as [| k [IH1 [IH2 IH3]]]; cbn; [auto |].
  rewrite IH2, IH3. auto.
Qed.

Lemma create_call_is_no_read p :
  is_poll (Call (create_call p)) = false
  /\ is_sleep (Call (create_call p)) = false
  /\ is_fetch (Call (create_call p)) = false.
Proof.
  unfold create_call. destruct (opt_eq (type p) "DNS_PRIVATE"); auto.
Qed.

(** X9: a waited-for create that the remote carries through, the
    operation reaching SUCCESS at poll [k], polls [k + 1] times during the
    wait and once more for the target, sleeps [k] times, and fetches the
    target namespace exactly once. *)
Theorem waited_create_fetches_once p s nss s1 created tr s' d :
  state p = "present" ->
  type_given p ->
  lists (type p) s nss s1 ->
  matching_namespaces (name p) nss = inr [] ->
  wait p = true ->
  create_answered p s1 created tr s' ->
  jsonize created = inr (VDict d) ->
  List.length (filter is_fetch (snd (fst (run p s)))) = 1
  /\ List.length (filter is_poll (snd (fst (run p s))))
     = List.length (filter is_sleep (snd (fst (run p s)))) + 2
  /\ List.length (filter is_poll (snd (fst (run p s)))) <= maxAttempts + 1.
Proof.
  intros Hs Ht Hl Hm Hw Hc Hj.
  rewrite (run_creates p s nss s1 created tr s' d Hs Ht Hl Hm Hc Hj).
  cbn [fst snd].
  destruct (create_call_is_no_read p) as [N1 [N2 N3]].
  change (filter is_fetch
            (Call (list_namespaces_call [("Filters", type_filters (type p))])
               :: Call (create_call p) :: tr))
    with (if is_fetch (Call (create_call p))
          then Call (create_call p) :: filter is_fetch tr
          else filter is_fetch tr).
  change (filter is_poll
            (Call (list_namespaces_call [("Filters", type_filters (type p))])
               :: Call (create_call p) :: tr))
    with (if is_poll (Call (create_call p))
          then Call (create_call p) :: filter is_poll tr
          else filter is_poll tr).
  change (filter is_sleep
            (Call (list_namespaces_call [("Filters", type_filters (type p))])
               :: Call (create_call p) :: tr))
    with (if is_sleep (Call (create_call p))
          then Call (create_call p) :: filter is_sleep tr
          else filter is_sleep tr).
  rewrite N1, N2, N3.
  destruct Hc as [? ? ? Hw' | ? ? op k ? ? ? ? ? ? ? ? _ _ _ Hk];
    [rewrite Hw in Hw'; discriminate |].
  destruct (polls_trace_counts op k) as [C1 [C2 C3]].
  destruct Hk as [Hk _].
  rewrite !filter_app, !length_app, C1, C2, C3. cbn.
  unfold maxAttempts in Hk. lia.
Qed.

(** X10: a create that is not waited for makes exactly two remote calls,
    the listing and the create: no poll, no sleep, no fetch; the response
    of the create call is what the run returns under [namespace], after
    the key conversion, with [changed=True]. *)
Theorem unwaited_create_makes_no_poll p s nss s1 response s2 op d :
  state p = "present" ->
  type_given p ->
  lists (type p) s nss s1 ->
  matching_namespaces (name p) nss = inr [] ->
  wait p = false ->
  sd (create_call p) s1 = (inr response, s2) ->
  py_getitem response "OperationId" = inr op ->
  jsonize response = inr (VDict d) ->
  run p s
  = (Exited (ExitJson [("changed", VBool true);
                       ("namespace", snake_value (VDict d))]),
     [Call (listing_call p); Call (create_call p)],
     s2)
  /\ filter (fun ev => is_poll ev || is_sleep ev || is_fetch ev)
       (snd (fst (run p s))) = [].
Proof.
  intros Hs Ht Hl Hm Hw Hc Hop Hj.
  pose proof (unwaited_create_exits_with_response p s nss s1 response s2 op d
                Hs Ht Hl Hm Hw Hc Hop Hj) as Hrun.
  split; [exact Hrun |]. rewrite Hrun. cbn [fst snd].
  unfold create_call. destruct (opt_eq (type p) "DNS_PRIVATE"); reflexivity.
Qed.

(** ** The arguments of the create call *)

Lemma dict_get_set_same k v d : dict_get k (dict_set k v d) = Some v.
Proof.
  induction d as [| [k0 v0] t IH]; cbn [dict_set dict_get].
  - rewrite String.eqb_refl. reflexivity.
  - destruct (String.eqb k k0) eqn:E; cbn [dict_get]; rewrite E;
      [reflexivity | exact IH].
Qed.

Lemma optional_params_creator_request_id c d params :
  dict_get "CreatorRequestId" params = None ->
  dict_get "CreatorRequestId" (optional_params c d params)
  = if opt_truthy c then Some (opt_value c) else None.
Proof.
  intros H. unfold optional_params.
  destruct (opt_truthy d), (opt_truthy c);
    rewrite ?dict_get_set_other by discriminate;
    rewrite ?dict_get_set_same; auto.
Qed.

Lemma optional_params_description c d params :
  dict_get "description" params = None ->
  dict_get "description" (optional_params c d params)
  = if opt_truthy d then Some (opt_value d) else None.
Proof.
  intros H. unfold optional_params.
  destruct (opt_truthy d), (opt_truthy c);
    rewrite ?dict_get_set_same;
    rewrite ?dict_get_set_other by discriminate; auto.
Qed.

(** X11: the create call carries [CreatorRequestId] exactly when
    [creator_request_id] is given and not empty, and the description
    exactly when [description] is given and not empty; the description
    goes under the key [description], never under [Description]. *)
Theorem create_call_optional_arguments p s nss s1 :
  state p = "present" ->
  type_given p ->
  lists (type p) s nss s1 ->
  matching_namespaces (name p) nss = inr [] ->
  exists out c tr s',
    run p s = (out, Call (listing_call p) :: Call c :: tr, s')
    /\ dict_get "CreatorRequestId" (call_kwargs c)
       = (if opt_truthy (creator_request_id p)
          then Some (opt_value (creator_request_id p)) else None)
    /\ dict_get "description" (call_kwargs c)
       = (if opt_truthy (description p)
          then Some (opt_value (description p)) else None)
    /\ dict_get "Description" (call_kwargs c) = None.
Proof.
  intros Hs Ht Hl Hm.
  destruct (run_creates_once p s nss s1 Hs Ht Hl Hm)
    as [out [tr [s' [Hrun _]]]].
  exists out, (create_call p), tr, s'. split; [exact Hrun |].
  unfold create_call.
  destruct Ht as [Ht | Ht]; rewrite Ht;
    cbn [opt_eq opt_value py_eq_str String.eqb Ascii.eqb Bool.eqb
         call_kwargs];
    rewrite optional_params_creator_request_id by reflexivity;
    rewrite optional_params_description by reflexivity;
    rewrite optional_params_get by discriminate; auto.
Qed.

(** X12: a present-state input of type DNS_PRIVATE without [vpc_id] is
    not stopped anywhere: when no namespace of that name is listed, the
    run calls [create_private_dns_namespace] with [Vpc=None]. *)
Theorem private_without_vpc_id_sends_none p s nss s1 :
  state p = "present" ->
  type p = Some "DNS_PRIVATE" ->
  vpc_id p = None ->
  lists (type p) s nss s1 ->
  matching_namespaces (name p) nss = inr [] ->
  exists out kwargs tr s',
    run p s
    = (out,
       Call (listing_call p)
         :: Call (create_private_dns_namespace_call kwargs) :: tr,
       s')
    /\ dict_get "Vpc" kwargs = Some VNone.
Proof.
  intros Hs Ht Hv Hl Hm.
  destruct (run_creates_once p s nss s1 Hs (or_introl Ht) Hl Hm)
    as [out [tr [s' [Hrun _]]]].
  unfold create_call in Hrun. rewrite Ht, Hv in Hrun.
  cbn [opt_eq opt_value py_eq_str String.eqb Ascii.eqb Bool.eqb] in Hrun.
  unfold listing_call. rewrite Ht.
  do 4 eexists. split; [exact Hrun |].
  rewrite optional_params_get by discriminate. reflexivity.
Qed.

(** ** How a run can end *)

Lemma calm_ret {A : Type} (a : A) : never_exits (ret a).
Proof. intros w o w' H. discriminate H. Qed.

Lemma calm_raise {A : Type} (e : exn) : never_exits (@raise A e).
Proof. intros w o w' H. discriminate H. Qed.

Lemma calm_lift {A : Type} (r : result A) : never_exits (lift r).
Proof. destruct r; [apply calm_raise | apply calm_ret]. Qed.

Lemma calm_bind {A B : Type} (m : M A) (k : A -> M B) :
  never_exits m -> (forall a, never_exits (k a)) -> never_exits (bind m k).
Proof.
  intros Hm Hk w o w' H. unfold bind in H.
  destruct (m w) as [[r | a] w1] eqn:E.
  - inversion H; subst. exact (Hm w o w' E).
  - exact (Hk a w1 o w' H).
Qed.

Lemma calm_call c : never_exits (client_call c).
Proof.
  intros [s tr] o w' H. unfold client_call in H.
  destruct (sd c s) as [[e | v] s1]; discriminate H.
Qed.

Lemma calm_sleep n : never_exits (sleep n).
Proof. intros w o w' H. discriminate H. Qed.

Lemma calm_wait_attempts kwargs more : never_exits (wait_attempts more kwargs).
Proof.
  induction more as [| more IH]; cbn [wait_attempts].
  all: apply calm_bind; [apply calm_call | intros response].
  all: apply calm_bind; [apply calm_lift | intros [|]]; [apply calm_ret |].
  all: apply calm_bind; [apply calm_lift | intros [|]]; [apply calm_raise |].
  - apply calm_raise.
  - apply calm_bind; [apply calm_sleep | intros _; exact IH].
Qed.

Lemma calm_await_namespace response wait :
  never_exits (await_namespace response wait).
Proof.
  unfold await_namespace.
  apply calm_bind; [apply calm_lift | intros operation].
  destruct wait; [| apply calm_ret].
  apply calm_bind; [apply calm_wait_attempts | intros _].
  apply calm_bind; [apply calm_call | intros r].
  do 3 (apply calm_bind; [apply calm_lift | intros ?]).
  apply calm_bind; [apply calm_call | intros got].
  apply calm_lift.
Qed.

Lemma calm_create_namespace nm ty d c v w :
  never_exits (create_namespace nm ty d c v w).
Proof.
  unfold create_namespace.
  apply calm_bind.
  { destruct (opt_eq ty "DNS_PRIVATE"); [| apply calm_ret].
    apply calm_bind; [| intros; apply calm_ret].
    unfold create_private_dns_namespace.
    apply calm_bind; [apply calm_call | intros r].
    apply calm_await_namespace. }
  intros namespace. apply calm_bind.
  { destruct (opt_eq ty "DNS_PUBLIC"); [| apply calm_ret].
    apply calm_bind; [| intros; apply calm_ret].
    unfold create_public_dns_namespace.
    apply calm_bind; [apply calm_call | intros r].
    apply calm_await_namespace. }
  intros [ns |]; [apply calm_lift | apply calm_raise].
Qed.

(** The lookup makes the listing call and no other, and does not end the
    process. *)
Lemma get_namespaces_by_name_cases nm ty s tr :
  exists (r : result (option (list value))) s1,
    get_namespaces_by_name nm ty (s, tr)
    = (match r with inl e => inl (Exception e) | inr x => inr x end,
       (s1, tr ++ [Call (list_namespaces_call
                           [("Filters", type_filters ty)])])).
Proof.
  unfold get_namespaces_by_name, list_namespaces, bind, client_call.
  destruct (sd _ s) as [[e | v] s1].
  - exists (inl e), s1. reflexivity.
  - destruct (negb (py_truthy v)); [exists (inr None), s1; reflexivity |].
    destruct (py_getitem v "Namespaces") as [e | listed];
      [exists (inl e), s1; reflexivity |].
    cbn [lift ret raise].
    destruct (py_iter listed) as [e | items];
      [exists (inl e), s1; reflexivity |].
    cbn [lift ret raise].
    destruct (matching_namespaces nm items) as [e | m];
      [exists (inl e), s1 | exists (inr (Some m)), s1]; reflexivity.
Qed.

Lemma get_namespace_cases id s tr :
  exists (r : result value) s1,
    get_namespace id (s, tr)
    = (match r with inl e => inl (Exception e) | inr x => inr x end,
       (s1, tr ++ [Call (get_namespace_call [("Id", id)])])).
Proof.
  unfold get_namespace, bind, client_call.
  destruct (sd _ s) as [[e | v] s1].
  - exists (inl e), s1. reflexivity.
  - destruct (py_getitem v "Namespace") as [e | namespace];
      [exists (inl e), s1; reflexivity |].
    cbn [lift ret].
    destruct (negb (py_truthy namespace));
      [exists (inr VNone), s1; reflexivity |].
    destruct (jsonize namespace) as [e | j];
      [exists (inl e), s1 | exists (inr j), s1]; reflexivity.
Qed.

(** X13: an absent-state run ends in one of two ways only, whatever the
    remote answers: [changed=True] after the listing and one delete call
    that was answered, or [fail_json] with the message built from the name
    and an error, after the listing alone or the listing and one delete
    call.  It never reports [changed=False]. *)
Theorem absent_run_ends p s :
  state p = "absent" ->
  type_allowed p ->
  exists out tr s',
    run p s = (Exited out, tr, s')
    /\ ((out = ExitJson [("changed", VBool true)]
         /\ exists id,
              tr = [Call (listing_call p);
                    Call (delete_namespace_call [("Id", id)])])
        \/ ((exists e, out = FailJson (failure_message p e))
            /\ (tr = [Call (listing_call p)]
                \/ exists id,
                     tr = [Call (listing_call p);
                           Call (delete_namespace_call [("Id", id)])]))).
Proof.
  intros Hs Ht.
  destruct (get_namespaces_by_name_cases (name p) (type p) s [])
    as [r [s1 Hlook]].
  destruct r as [e | existing].
  { exists (FailJson (failure_message p e)), [Call (listing_call p)], s1.
    split; [| right; split; [eexists; reflexivity | left; reflexivity]].
    apply run_exited, main_when_absent; [assumption | assumption |].
    unfold main_absent. eapply try_caught; [| reflexivity].
    apply bind_raised. exact Hlook. }
  destruct (first_existing existing) as [e | first] eqn:Ef.
  { exists (FailJson (failure_message p e)), [Call (listing_call p)], s1.
    split; [| right; split; [eexists; reflexivity | left; reflexivity]].
    apply run_exited, main_when_absent; [assumption | assumption |].
    unfold main_absent. eapply try_caught; [| reflexivity].
    eapply bind_ok; [exact Hlook |].
    apply bind_raised, lift_raised. exact Ef. }
  destruct (py_getitem first "Id") as [e | id] eqn:Eid.
  { exists (FailJson (failure_message p e)), [Call (listing_call p)], s1.
    split; [| right; split; [eexists; reflexivity | left; reflexivity]].
    apply run_exited, main_when_absent; [assumption | assumption |].
    unfold main_absent. eapply try_caught; [| reflexivity].
    eapply bind_ok; [exact Hlook |].
    eapply bind_ok; [apply lift_ok; exact Ef |].
    apply bind_raised, lift_raised. exact Eid. }
  destruct (sd (delete_namespace_call [("Id", id)]) s1) as [[e | v] s2]
    eqn:Edel.
  - exists (FailJson (failure_message p e)),
      [Call (listing_call p); Call (delete_namespace_call [("Id", id)])], s2.
    split; [| right; split; [eexists; reflexivity
                            | right; eexists; reflexivity]].
    apply run_exited, main_when_absent; [assumption | assumption |].
    unfold main_absent. eapply try_caught; [| reflexivity].
    eapply bind_ok; [exact Hlook |].
    eapply bind_ok; [apply lift_ok; exact Ef |].
    eapply bind_ok; [apply lift_ok; exact Eid |].
    apply bind_raised. exact (client_call_eq _ _ _ _ _ Edel).
  - exists (ExitJson [("changed", VBool true)]),
      [Call (listing_call p); Call (delete_namespace_call [("Id", id)])], s2.
    split; [| left; split; [reflexivity | eexists; reflexivity]].
    apply run_exited, main_when_absent; [assumption | assumption |].
    unfold main_absent. apply try_exit.
    eapply bind_ok; [exact Hlook |].
    eapply bind_ok; [apply lift_ok; exact Ef |].
    eapply bind_ok; [apply lift_ok; exact Eid |].
    eapply bind_ok; [exact (client_call_eq _ _ _ _ _ Edel) |].
    reflexivity.
Qed.

(** X14: a present-state run ends in one of four ways only, whatever the
    remote answers: [changed=False] after the listing and one fetch;
    [changed=True] after the listing and exactly one create call;
    [fail_json] with the message built from the name and an error; or the
    uncaught [TypeError], after the listing alone.  It never ends without
    output, and never reports [changed=False] once it has created. *)
Theorem present_run_ends p s :
  state p = "present" ->
  type_given p ->
  exists out tr s',
    run p s = (out, tr, s')
    /\ ((exists n id,
           out = Exited (ExitJson [("changed", VBool false);
                                   ("namespace", n)])
           /\ tr = [Call (listing_call p);
                    Call (get_namespace_call [("Id", id)])])
        \/ (exists n tr',
              out = Exited (ExitJson [("changed", VBool true);
                                      ("namespace", n)])
              /\ tr = Call (listing_call p) :: Call (create_call p) :: tr'
              /\ filter is_create tr' = [])
        \/ (exists e, out = Exited (FailJson (failure_message p e)))
        \/ (out = Traceback TypeError /\ tr = [Call (listing_call p)])).
Proof.
  intros Hs Ht.
  destruct (get_namespaces_by_name_cases (name p) (type p) s [])
    as [r [s1 Hlook]].
  destruct r as [e | [[| a [| b rest]] |]].
  - (* the lookup raises *)
    do 3 eexists. split; [| right; right; left; eexists; reflexivity].
    apply run_exited, main_when_present; [assumption | assumption |].
    unfold main_present. apply bind_raised.
    eapply try_caught; [| reflexivity].
    apply bind_raised. exact Hlook.
  - (* no match: the create path *)
    destruct (create_namespace_creates_once p s1 [Call (listing_call p)] Ht)
      as [tr' [E F]].
    destruct (create_namespace (name p) (type p) (description p)
                (creator_request_id p) (vpc_id p) (wait p)
                (s1, [Call (listing_call p)]))
      as [rc [s' trc]] eqn:Ec.
    cbn [snd app] in E. subst trc.
    destruct rc as [[e | o] | json].
    + do 3 eexists. split; [| right; right; left; eexists; reflexivity].
      apply run_exited, main_when_present; [assumption | assumption |].
      unfold main_present. apply bind_raised.
      eapply try_caught; [| reflexivity].
      eapply bind_ok; [exact Hlook |].
      eapply bind_ok; [reflexivity |].
      eapply bind_ok; [reflexivity |].
      cbn [not_existing]. apply bind_raised, bind_raised. exact Ec.
    + exfalso. exact (calm_create_namespace _ _ _ _ _ _ _ _ _ Ec).
    + destruct (camel_dict_to_snake_dict json) as [e | snake] eqn:Esn.
      * do 3 eexists. split; [| right; right; left; eexists; reflexivity].
        apply run_exited, main_when_present; [assumption | assumption |].
        unfold main_present. apply bind_raised.
        eapply try_caught; [| reflexivity].
        eapply bind_ok; [exact Hlook |].
        eapply bind_ok; [reflexivity |].
        eapply bind_ok; [reflexivity |].
        cbn [not_existing]. apply bind_raised.
        eapply bind_ok; [exact Ec |].
        apply bind_raised, lift_raised. exact Esn.
      * do 3 eexists. split;
          [| right; left; exists snake, tr';
             split; [reflexivity | split; [reflexivity | exact F]]].
        apply run_exited, main_when_present; [assumption | assumption |].
        unfold main_present. apply bind_raised, try_exit.
        eapply bind_ok; [exact Hlook |].
        eapply bind_ok; [reflexivity |].
        eapply bind_ok; [reflexivity |].
        cbn [not_existing]. apply bind_raised.
        eapply bind_ok; [exact Ec |].
        eapply bind_ok; [apply lift_ok; exact Esn |].
        reflexivity.
  - (* one match: the fetch *)
    destruct (py_getitem a "Id") as [e | id] eqn:Eid.
    { do 3 eexists. split; [| right; right; left; eexists; reflexivity].
      apply run_exited, main_when_present; [assumption | assumption |].
      unfold main_present. apply bind_raised.
      eapply try_caught; [| reflexivity].
      eapply bind_ok; [exact Hlook |].
      eapply bind_ok; [reflexivity |].
      cbn [List.length Nat.eqb]. apply bind_raised.
      eapply bind_ok; [reflexivity |].
      apply bind_raised, lift_raised. exact Eid. }
    destruct (get_namespace_cases id s1 [Call (listing_call p)])
      as [rg [s2 Hget]].
    destruct rg as [e | namespace].
    { do 3 eexists. split; [| right; right; left; eexists; reflexivity].
      apply run_exited, main_when_present; [assumption | assumption |].
      unfold main_present. apply bind_raised.
      eapply try_caught; [| reflexivity].
      eapply bind_ok; [exact Hlook |].
      eapply bind_ok; [reflexivity |].
      cbn [List.length Nat.eqb]. apply bind_raised.
      eapply bind_ok; [reflexivity |].
      eapply bind_ok; [apply lift_ok; exact Eid |].
      apply bind_raised. exact Hget. }
    destruct (camel_dict_to_snake_dict namespace) as [e | snake] eqn:Esn.
    + do 3 eexists. split; [| right; right; left; eexists; reflexivity].
      apply run_exited, main_when_present; [assumption | assumption |].
      unfold main_present. apply bind_raised.
      eapply try_caught; [| reflexivity].
      eapply bind_ok; [exact Hlook |].
      eapply bind_ok; [reflexivity |].
      cbn [List.length Nat.eqb]. apply bind_raised.
      eapply bind_ok; [reflexivity |].
      eapply bind_ok; [apply lift_ok; exact Eid |].
      eapply bind_ok; [exact Hget |].
      apply bind_raised, lift_raised. exact Esn.
    + do 3 eexists. split;
        [| left; exists snake, id; split; reflexivity].
      apply run_exited, main_when_present; [assumption | assumption |].
      unfold main_present. apply bind_raised, try_exit.
      eapply bind_ok; [exact Hlook |].
      eapply bind_ok; [reflexivity |].
      cbn [List.length Nat.eqb]. apply bind_raised.
      eapply bind_ok; [reflexivity |].
      eapply bind_ok; [apply lift_ok; exact Eid |].
      eapply bind_ok; [exact Hget |].
      eapply bind_ok; [apply lift_ok; exact Esn |].
      reflexivity.
  - (* several matches *)
    do 3 eexists. split; [| right; right; right; split; reflexivity].
    apply run_traceback, main_when_present; [assumption | assumption |].
    unfold main_present.
    eapply bind_ok; [| reflexivity].
    apply try_ok.
    eapply bind_ok; [exact Hlook |].
    eapply bind_ok; [reflexivity |].
    eapply bind_ok; [reflexivity |].
    eapply bind_ok; [reflexivity |].
    reflexivity.
  - (* the lookup returns None *)
    do 3 eexists. split; [| right; right; left; eexists; reflexivity].
    apply run_exited, main_when_present; [assumption | assumption |].
    unfold main_present. apply bind_raised.
    eapply try_caught; [| reflexivity].
    eapply bind_ok; [exact Hlook |].
    apply bind_raised. reflexivity.
Qed.

(** ** The lookup loop *)

(** X15: over summaries that all carry a [Name], the loop of
    [get_namespaces_by_name] is a filter: it returns the summaries whose
    [Name] equals the name asked for, all of them and in the order of the
    listing. *)
Theorem matching_namespaces_is_filter nm items :
  Forall (fun ns => exists n, py_getitem ns "Name" = inr n) items ->
  matching_namespaces nm items
  = inr (filter (fun ns => match py_getitem ns "Name" with
                           | inr n => py_eq_str n nm
                           | inl _ => false
                           end) items).
Proof.
  induction 1 as [| ns items [n Hn] _ IH]; [reflexivity |].
  cbn [matching_namespaces filter]. rewrite Hn, IH. cbn [rbind].
  destruct (py_eq_str n nm); reflexivity.
Qed.

(** X16: a summary without a [Name] makes the lookup raise [KeyError],
    wherever it stands in the listing after summaries that have one. *)
Theorem matching_namespaces_missing_name nm before d after :
  Forall (fun ns => exists n, py_getitem ns "Name" = inr n) before ->
  dict_get "Name" d = None ->
  matching_namespaces nm (before ++ VDict d :: after) = inl (KeyError "Name").
Proof.
  intros Hb Hd. induction Hb as [| ns items [n Hn] _ IH].
  - cbn [app matching_namespaces py_getitem]. rewrite Hd. reflexivity.
  - cbn [app matching_namespaces]. rewrite Hn, IH. reflexivity.
Qed.

(** ** The create that fails *)

(** X24: when the create call raises, the present-state run ends in
    [fail_json] with the message built from the name and that error; the
    create was attempted once, and nothing is polled or fetched. *)
Theorem create_error_is_reported p s nss s1 e s2 :
  state p = "present" ->
  type_given p ->
  lists (type p) s nss s1 ->
  matching_namespaces (name p) nss = inr [] ->
  sd (create_call p) s1 = (inl e, s2) ->
  run p s
  = (Exited (FailJson (failure_message p e)),
     [Call (listing_call p); Call (create_call p)],
     s2).
Proof.
  intros Hs Ht Hl Hm Hc. unfold listing_call.
  eapply run_create_raises; try eassumption.
  unfold create_namespace, create_call in *.
  destruct Ht as [Ht | Ht]; rewrite Ht in *;
    cbn [opt_eq opt_value py_eq_str String.eqb Ascii.eqb Bool.eqb] in *.
  - apply bind_raised, bind_raised.
    unfold create_private_dns_namespace.
    apply bind_raised. exact (client_call_eq _ _ _ _ _ Hc).
  - eapply bind_ok; [reflexivity |].
    apply bind_raised, bind_raised.
    unfold create_public_dns_namespace.
    apply bind_raised. exact (client_call_eq _ _ _ _ _ Hc).
Qed.

Lemma wait_attempts_exhausted op : forall more s tr,
  (forall i, i <= more -> poll_pending (poll_answer op i s)) ->
  wait_attempts more [("OperationId", op)] (s, tr)
  = (inl (Exception WaiterMaxAttempts),
     (after_polls op (S more) s, tr ++ polls_trace op more)).
Proof.
  induction more as [| more IH]; intros s tr Hpend.
  all: destruct (Hpend 0 ltac:(lia)) as [v [Hv [Hm He]]].
  all: unfold poll_answer in Hv; cbn [after_polls] in Hv.
  all: destruct (sd (poll_call op) s) as [r s1] eqn:E; cbn [fst] in Hv.
  all: subst r; cbn [wait_attempts].
  all: eapply bind_ok; [exact (client_call_eq _ _ _ _ _ E) |].
  all: eapply bind_ok; [apply lift_ok; exact Hm |].
  all: eapply bind_ok; [apply lift_ok; exact He |].
  - cbn [after_polls polls_trace]. rewrite E. reflexivity.
  - eapply bind_ok; [reflexivity |].
    cbn [fst snd].
    rewrite (IH s1 ((tr ++ [Call (poll_call op)]) ++ [Sleep delay])).
    + cbn [after_polls polls_trace]. rewrite E. cbn [snd].
      rewrite <- !app_assoc. reflexivity.
    + intros i Hi. specialize (Hpend (S i) ltac:(lia)).
      unfold poll_answer in *. cbn [after_polls] in Hpend.
      rewrite E in Hpend. exact Hpend.
Qed.

(** X25: when each of the ten polls of a waited-for create is answered
    with a status other than SUCCESS, the wait gives up after exactly ten
    polls and nine sleeps, the run ends in [fail_json] with the waiter's
    "max attempts" error, and the target namespace is never fetched. *)
Theorem wait_gives_up_after_ten_polls p s nss s1 response s2 op :
  state p = "present" ->
  type_given p ->
  lists (type p) s nss s1 ->
  matching_namespaces (name p) nss = inr [] ->
  wait p = true ->
  sd (create_call p) s1 = (inr response, s2) ->
  py_getitem response "OperationId" = inr op ->
  (forall i, i < maxAttempts -> poll_pending (poll_answer op i s2)) ->
  run p s
  = (Exited (FailJson (failure_message p WaiterMaxAttempts)),
     Call (listing_call p) :: Call (create_call p) :: polls_trace op 9,
     after_polls op 10 s2).
Proof.
  intros Hs Ht Hl Hm Hw Hc Hop Hpend.
  eapply run_create_raises; try eassumption.
  eapply create_namespace_raises; try eassumption.
  unfold await_namespace.
  eapply bind_ok; [apply lift_ok; exact Hop |].
  rewrite Hw. apply bind_raised. unfold waiter_wait.
  rewrite wait_attempts_exhausted.
  - reflexivity.
  - intros i Hi. apply Hpend. unfold maxAttempts in *. lia.
Qed.

End ServiceDiscoveryNamespace.

(** ** Against the stateful remote *)

Section AgainstFake.

Variable py_str : value -> string.
Variable exn_str : exn -> string.
Variable camel_to_snake : string -> string.

Lemma fake_matching nm l :
  matching_namespaces nm (map Fake.summary l)
  = inr (map Fake.summary
           (filter (fun ns => String.eqb (Fake.ns_name ns) nm) l)).
Proof.
  induction l as [| ns l IH]; [reflexivity |].
  cbn [map matching_namespaces filter]. rewrite IH.
  cbn. destruct (String.eqb (Fake.ns_name ns) nm); reflexivity.
Qed.



Lemma fake_poll_new id ops o :
  (forall x, In x ops -> Fake.op_id x <> id) ->
  Fake.op_id o = id ->
  Fake.poll id (ops ++ [o])
  = Some (o, ops ++ [{| Fake.op_id := Fake.op_id o;
                        Fake.op_target := Fake.op_target o;
                        Fake.op_pending := Nat.pred (Fake.op_pending o) |}]).
Proof.
  intros Hfresh Hid. induction ops as [| x ops IH]; cbn [app Fake.poll].
  - rewrite Hid, String.eqb_refl. reflexivity.
  - destruct (String.eqb_spec (Fake.op_id x) id) as [Hx | Hx].
    + exfalso. exact (Hfresh x (or_introl eq_refl) Hx).
    + rewrite IH; [reflexivity |].
      intros y Hy. apply Hfresh. right. exact Hy.
Qed.


Lemma fake_poll_created ty nm k r :
  Fake.fresh r ->
  Fake.client (poll_call (VStr (Fake.fresh_op_id r)))
    (Fake.with_created ty nm k r)
  = (inr (Fake.describe (Fake.new_operation k r)),
     Fake.with_created ty nm (Nat.pred k) r).
Proof.
  intros [Hops _]. cbn [Fake.client poll_call].
  unfold Fake.get_operation, Fake.with_created.
  cbn [dict_get String.eqb Ascii.eqb Bool.eqb Fake.operations].
  erewrite fake_poll_new; [reflexivity | exact Hops | reflexivity].
Qed.

Lemma fake_after_polls ty nm r i : forall k,
  Fake.fresh r ->
  after_polls Fake.remote Fake.client (VStr (Fake.fresh_op_id r)) i
    (Fake.with_created ty nm k r)
  = Fake.with_created ty nm (k - i) r.
Proof.
  induction i as [| i IH]; intros k Hf; cbn [after_polls].
  - rewrite Nat.sub_0_r. reflexivity.
  - rewrite (fake_poll_created _ _ _ _ Hf). cbn [snd].
    rewrite (IH _ Hf). f_equal. lia.
Qed.

Lemma fake_poll_answer ty nm r i k :
  Fake.fresh r ->
  poll_answer Fake.remote Fake.client (VStr (Fake.fresh_op_id r)) i
    (Fake.with_created ty nm k r)
  = inr (Fake.describe (Fake.new_operation (k - i) r)).
Proof.
  intros Hf. unfold poll_answer.
  rewrite (fake_after_polls _ _ _ _ _ Hf), (fake_poll_created _ _ _ _ Hf).
  reflexivity.
Qed.

Lemma fake_succeeds_at ty nm r k :
  Fake.fresh r ->
  k < maxAttempts ->
  succeeds_at Fake.remote Fake.client (VStr (Fake.fresh_op_id r))
    (Fake.with_created ty nm k r) k.
Proof.
  intros Hf Hk. split; [exact Hk | split].
  - intros i Hi. rewrite (fake_poll_answer _ _ _ _ _ Hf).
    eexists; split; [reflexivity |].
    destruct (k - i) as [| j] eqn:E; [lia |]. split; reflexivity.
  - rewrite (fake_poll_answer _ _ _ _ _ Hf), Nat.sub_diag.
    eexists; split; reflexivity.
Qed.







End AgainstFake.

(** ** One namespace of that name and type, among others *)

Section OneAmongOthers.

Variable py_str : value -> string.
Variable exn_str : exn -> string.
Variable camel_to_snake : string -> string.

Lemma fake_lists_allowed p r :
  type_allowed p ->
  lists Fake.remote Fake.client (type p) r
    (map Fake.summary
       (filter (Fake.has_type (type p)) (Fake.namespaces r)))
    r.
Proof.
  intros [Ht | [Ht | Ht]]; rewrite Ht; eexists; split; reflexivity.
Qed.

Lemma fake_others_do_not_match nm ty l :
  (forall x, In x l ->
             ~ (Fake.ns_name x = nm /\ Fake.has_type ty x = true)) ->
  filter (fun ns => String.eqb (Fake.ns_name ns) nm)
    (filter (Fake.has_type ty) l) = [].
Proof.
  intros H. induction l as [| x l IH]; [reflexivity |].
  assert (IH' := IH (fun y Hy => H y (or_intror Hy))).
  cbn [filter]. destruct (Fake.has_type ty x) eqn:Hty; [| exact IH'].
  cbn [filter].
  destruct (String.eqb_spec (Fake.ns_name x) nm) as [Hnm | Hnm];
    [| exact IH'].
  exfalso. apply (H x (or_introl eq_refl)). split; assumption.
Qed.

Lemma fake_single_match nm ty before ns after :
  Fake.ns_name ns = nm ->
  Fake.has_type ty ns = true ->
  (forall x, In x (before ++ after) ->
             ~ (Fake.ns_name x = nm /\ Fake.has_type ty x = true)) ->
  matching_namespaces nm
    (map Fake.summary
       (filter (Fake.has_type ty) (before ++ ns :: after)))
  = inr [Fake.summary ns].
Proof.
  intros Hnm Hty Hothers. rewrite fake_matching, !filter_app.
  cbn [filter]. rewrite Hty. cbn [filter]. rewrite Hnm, String.eqb_refl.
  rewrite !fake_others_do_not_match.
  - reflexivity.
  - intros x Hx. apply Hothers. apply in_or_app. right. exact Hx.
  - intros x Hx. apply Hothers. apply in_or_app. left. exact Hx.
Qed.


Lemma fake_find_member l ns :
  In ns l ->
  exists x,
    find (fun x => String.eqb (Fake.ns_id x) (Fake.ns_id ns)) l = Some x.
Proof.
  induction l as [| y l IH]; [intros [] |]. intros [-> | Hin]; cbn [find].
  - rewrite String.eqb_refl. eauto.
  - destruct (String.eqb (Fake.ns_id y) (Fake.ns_id ns)); eauto.
Qed.


(** C5: when the remote holds exactly one namespace of that name and
    type, whatever else it holds, an absent-state run issues, after the
    listing, exactly one delete call, whose [Id] is the id of that
    namespace, exits with [changed=True], and the remote no longer holds
    the namespace. *)
Theorem absent_with_one_match_deletes_it p r before ns after :
  state p = "absent" ->
  type_allowed p ->
  Fake.namespaces r = before ++ ns :: after ->
  Fake.ns_name ns = name p ->
  Fake.has_type (type p) ns = true ->
  (forall x, In x (before ++ after) ->
             ~ (Fake.ns_name x = name p
                /\ Fake.has_type (type p) x = true)) ->
  exists r2,
    run Fake.remote Fake.client py_str exn_str camel_to_snake p r
    = (Exited (ExitJson [("changed", VBool true)]),
       [Call (list_namespaces_call [("Filters", expected_filters (type p))]);
        Call (delete_namespace_call [("Id", VStr (Fake.ns_id ns))])],
       r2)
    /\ ~ In ns (Fake.namespaces r2).
Proof.
  intros Hs Ht Hr Hnm Hty Hothers.
  assert (Hin : In ns (Fake.namespaces r))
    by (rewrite Hr; apply in_or_app; right; left; reflexivity).
  destruct (fake_find_member _ _ Hin) as [x Hx].
  rewrite <- type_filters_expected
    by (destruct Ht as [Ht | [Ht | Ht]]; rewrite Ht; auto).
  eexists. split.
  - eapply run_deletes_first with (rest := []).
    + exact Hs.
    + exact Ht.
    + apply fake_lists_allowed. exact Ht.
    + rewrite Hr. apply fake_single_match; assumption.
    + reflexivity.
    + cbn [Fake.client]. unfold Fake.delete_namespace, Fake.find_namespace.
      cbn [dict_get String.eqb Ascii.eqb Bool.eqb].
      rewrite Hx. reflexivity.
  - cbn [Fake.namespaces]. intros Hmem. apply filter_In in Hmem.
    destruct Hmem as [_ Hneq]. rewrite String.eqb_refl in Hneq.
    discriminate Hneq.
Qed.

End OneAmongOthers.

(** ** Validation, and where the module departs from its documentation *)

Section Validation.

Variable St : Type.
Variable sd : call -> St -> result value * St.
Variable py_str : value -> string.
Variable exn_str : exn -> string.
Variable camel_to_snake : string -> string.

(** A present-state input without [type] is rejected by [required_if]
    before any remote call. *)
Lemma present_without_type_is_rejected p s :
  state p = "present" ->
  type p = None ->
  run St sd py_str exn_str camel_to_snake p s
  = (Exited (Rejected (RequiredIfMissing "state" "present" ["type"])), [], s).
Proof.
  intros Hs Ht. unfold run, main, bind, AnsibleAWSModule,
    check_argument_values, check_required_if, missing_requirements,
    argument_choices, required_if.
  unfold find, filter, param, fst, snd. simpl String.eqb. cbv iota.
  rewrite Hs, Ht. reflexivity.
Qed.

(** The second entry of [required_if] tests [type] against "private",
    which is not one of its choices: an input of type DNS_PRIVATE passes
    validation whether [vpc_id] is given or not. *)
Lemma private_without_vpc_id_is_accepted p w :
  state p = "present" ->
  type p = Some "DNS_PRIVATE" ->
  vpc_id p = None ->
  AnsibleAWSModule St p w = (inr p, w).
Proof.
  intros Hs Ht _. apply accepted_present; [exact Hs | left; exact Ht].
Qed.

End Validation.

(** ** Normalisation *)

Section Normalisation.

Variable py_str : value -> string.

Lemma stringify_absent key d :
  dict_get key d = None -> stringify py_str key (VDict d) = inr (VDict d).
Proof.
  intros H. unfold stringify, py_contains, dict_has. rewrite H. reflexivity.
Qed.

Lemma stringify_present key d v :
  dict_get key d = Some v ->
  stringify py_str key (VDict d)
  = inr (VDict (dict_set key (VStr (py_str v)) d)).
Proof.
  intros H. unfold stringify, py_contains, dict_has, py_getitem.
  rewrite H. reflexivity.
Qed.

Lemma stringify_each_absent key each d :
  dict_get key d = None -> stringify_each key each (VDict d) = inr (VDict d).
Proof.
  intros H. unfold stringify_each, py_contains, dict_has. rewrite H.
  reflexivity.
Qed.

(** [jsonize] is the identity on a dictionary that has none of the keys
    [createdAt], [deployments] and [events]. *)
Lemma jsonize_without_its_keys d :
  dict_get "createdAt" d = None ->
  dict_get "deployments" d = None ->
  dict_get "events" d = None ->
  jsonize py_str (VDict d) = inr (VDict d).
Proof.
  intros H1 H2 H3. unfold jsonize.
  rewrite (stringify_absent _ _ H1). cbn [rbind].
  rewrite (stringify_each_absent _ _ _ H2). cbn [rbind].
  apply stringify_each_absent. exact H3.
Qed.

(** The value under a top-level [createdAt] is replaced by its [str],
    whatever it is. *)
Lemma jsonize_created_at d v :
  dict_get "createdAt" d = Some v ->
  dict_get "deployments" d = None ->
  dict_get "events" d = None ->
  jsonize py_str (VDict d)
  = inr (VDict (dict_set "createdAt" (VStr (py_str v)) d)).
Proof.
  intros H1 H2 H3. unfold jsonize.
  rewrite (stringify_present _ _ _ H1). cbn [rbind].
  rewrite stringify_each_absent
    by (rewrite dict_get_set_other by discriminate; exact H2).
  cbn [rbind]. apply stringify_each_absent.
  rewrite dict_get_set_other by discriminate. exact H3.
Qed.

Lemma dict_set_present_keys k v d :
  dict_has k d = true -> map fst (dict_set k v d) = map fst d.
Proof.
  unfold dict_has. induction d as [| [k0 v0] t IH]; cbn [dict_get dict_set].
  - discriminate.
  - destruct (String.eqb k k0); [reflexivity |].
    intros H. cbn [map fst]. rewrite IH by exact H. reflexivity.
Qed.

Lemma stringify_same_but key d v :
  stringify py_str key (VDict d) = inr v ->
  exists d', v = VDict d' /\ same_but key d d'.
Proof.
  unfold stringify, py_contains, py_getitem, py_setitem, rbind.
  destruct (dict_has key d) eqn:Hh.
  - destruct (dict_get key d); [| discriminate].
    intros H; inversion H; subst v. eexists; split; [reflexivity |].
    split; [apply dict_set_present_keys; exact Hh |].
    intros k Hk. apply dict_get_set_other. exact Hk.
  - intros H; inversion H; subst v. eexists; split; [reflexivity |].
    split; [reflexivity | intros; reflexivity].
Qed.

Lemma stringify_each_same_but key each d v :
  stringify_each key each (VDict d) = inr v ->
  exists d', v = VDict d' /\ same_but key d d'.
Proof.
  unfold stringify_each, py_contains, py_getitem, py_setitem, rbind.
  destruct (dict_has key d) eqn:Hh.
  - destruct (dict_get key d) as [xs |]; [| discriminate].
    destruct (py_iter xs); [discriminate |].
    destruct (result_map each l); [discriminate |].
    destruct xs; intros H; inversion H; subst v;
      eexists; (split; [reflexivity |]);
      try (split; [reflexivity | intros; reflexivity]).
    split; [apply dict_set_present_keys; exact Hh |].
    intros k Hk. apply dict_get_set_other. exact Hk.
  - intros H; inversion H; subst v. eexists; split; [reflexivity |].
    split; [reflexivity | intros; reflexivity].
Qed.

(** [jsonize] keeps the keys of a dictionary, in their order, and the
    value under every key other than [createdAt], [deployments] and
    [events]. *)
Lemma jsonize_frame d v :
  jsonize py_str (VDict d) = inr v ->
  exists d',
    v = VDict d'
    /\ map fst d' = map fst d
    /\ forall k, k <> "createdAt" -> k <> "deployments" -> k <> "events" ->
                 dict_get k d' = dict_get k d.
Proof.
  unfold jsonize. intros H.
  destruct (stringify py_str "createdAt" (VDict d)) as [| v1] eqn:E1;
    [discriminate |].
  apply stringify_same_but in E1. destruct E1 as [d1 [-> [K1 G1]]].
  cbn [rbind] in H.
  match type of H with
  | rbind ?m _ = _ => destruct m as [| v2] eqn:E2; [discriminate |]
  end.
  apply stringify_each_same_but in E2. destruct E2 as [d2 [-> [K2 G2]]].
  cbn [rbind] in H.
  apply stringify_each_same_but in H. destruct H as [d3 [-> [K3 G3]]].
  exists d3. split; [reflexivity | split].
  - rewrite K3, K2, K1. reflexivity.
  - intros k H1 H2 H3. rewrite G3, G2, G1 by assumption. reflexivity.
Qed.

End Normalisation.


(** C1: a valid present-state input with a description, against a remote
    without a namespace of that name, does not come to [changed=True]: the
    create call carries the description under the key [description], the
    client has no such argument ([Description] is its name) and refuses
    the call, and the run ends in [fail_json].  The same input without the
    description creates the namespace and reports [changed=True]. *)
Example described_create_is_refused :
  run Fake.remote validated sample_str sample_exn_str sample_snake
    described_params (Fake.empty 0)
  = (Exited (FailJson
               "Exception 'my-namespace': Parameter validation failed: Unknown parameter in input: description"),
     [Call (list_namespaces_call
              [("Filters", expected_filters (Some "DNS_PUBLIC"))]);
      Call (create_public_dns_namespace_call
              [("Name", VStr "my-namespace");
               ("description", VStr "my namespace")])],
     Fake.empty 0)
  /\ fst (fst (run Fake.remote validated sample_str sample_exn_str
                 sample_snake
                 (example_params "present" (Some "DNS_PUBLIC") None true)
                 (Fake.empty 0)))
     = Exited (ExitJson [("changed", VBool true);
                         ("namespace",
                          VDict [("id", VStr "ns-0");
                                 ("name", VStr "my-namespace");
                                 ("type", VStr "DNS_PUBLIC")])]).
Proof. split; reflexivity. Qed.

(** C3: the module's own example input, type DNS_PRIVATE without
    [vpc_id], is not rejected by validation: the run goes on to the remote,
    lists the namespaces and issues a create call with [Vpc=None]. *)
Example private_without_vpc_id_reaches_the_remote :
  run Fake.remote Fake.client sample_str sample_exn_str sample_snake
    (example_params "present" (Some "DNS_PRIVATE") None true) (Fake.empty 0)
  = (Exited (FailJson "Exception 'my-namespace': InvalidInput"),
     [Call (list_namespaces_call
              [("Filters",
                VList [VDict [("Name", VStr "TYPE");
                              ("Values", VList [VStr "DNS_PRIVATE"])]])]);
      Call (create_private_dns_namespace_call
              [("Name", VStr "my-namespace"); ("Vpc", VNone)])],
     Fake.empty 0).
Proof. reflexivity. Qed.

(** C4: a create with [wait=False] makes no poll, and exits with
    [changed=True] and the create response under [namespace]: the
    operation id is [namespace.operation_id], there is no top-level
    [operation_id], and [namespace] is returned although nothing was
    waited for. *)
Example unwaited_create_returns_namespace :
  run Fake.remote Fake.client sample_str sample_exn_str sample_snake
    (example_params "present" (Some "DNS_PUBLIC") None false) (Fake.empty 0)
  = (Exited (ExitJson [("changed", VBool true);
                       ("namespace",
                        VDict [("operation_id", VStr "op-0")])]),
     [Call (list_namespaces_call
              [("Filters",
                VList [VDict [("Name", VStr "TYPE");
                              ("Values", VList [VStr "DNS_PUBLIC"])]])]);
      Call (create_public_dns_namespace_call
              [("Name", VStr "my-namespace")])],
     Fake.with_created "DNS_PUBLIC" "my-namespace" 0 (Fake.empty 0)).
Proof. reflexivity. Qed.

(** C9: [jsonize] tests for the key [createdAt]; a namespace carries its
    creation timestamp under [CreateDate], which is left a datetime and
    reaches the output as [create_date], still a datetime. *)
Example create_date_stays_a_datetime :
  jsonize sample_str example_namespace = inr example_namespace
  /\ rbind (jsonize sample_str example_namespace)
           (camel_dict_to_snake_dict sample_snake)
     = inr (VDict [("id", VStr "ns-1"); ("name", VStr "my-namespace");
                   ("type", VStr "DNS_PUBLIC");
                   ("create_date", VDatetime 1546300800)]).
Proof. split; reflexivity. Qed.

(** ** The theorems at work on the stateful remote *)

Lemma fake_empty_fresh lat : Fake.fresh (Fake.empty lat).
Proof. split; intros x []. Defined.


Lemma present_with_several_matches_calls_only_list_witness :
  run Fake.remote Fake.client sample_str sample_exn_str sample_snake
    (example_params "present" (Some "DNS_PRIVATE") (Some "vpc-123") true)
    example_remote_twice
  = (Traceback TypeError,
     [Call (list_namespaces_call
              [("Filters", type_filters (Some "DNS_PRIVATE"))])],
     example_remote_twice)
  /\ filter (fun ev => is_create ev || is_delete ev)
       (snd (fst (run Fake.remote Fake.client sample_str sample_exn_str
                    sample_snake
                    (example_params "present" (Some "DNS_PRIVATE")
                       (Some "vpc-123") true)
                    example_remote_twice)))
     = [].
Proof.
  apply (present_with_several_matches_calls_only_list Fake.remote Fake.client
           sample_str sample_exn_str sample_snake
           (example_params "present" (Some "DNS_PRIVATE") (Some "vpc-123")
              true)
           example_remote_twice
           (map Fake.summary (Fake.namespaces example_remote_twice))
           example_remote_twice
           (Fake.summary (Fake.new_namespace "DNS_PRIVATE" "my-namespace"
                            (Fake.empty 0)))
           (Fake.summary (Fake.new_namespace "DNS_PRIVATE" "my-namespace"
                            example_remote))
           []).
  - reflexivity.
  - left; reflexivity.
  - eexists; split; reflexivity.
  - reflexivity.
Defined.


(** ** More on validation *)

Section Rejection.

Variable St : Type.
Variable sd : call -> St -> result value * St.
Variable py_str : value -> string.
Variable exn_str : exn -> string.
Variable camel_to_snake : string -> string.

(** X17: a present-state input without [type] is rejected by the first
    entry of [required_if], and the run makes no remote call. *)
Theorem present_without_type_makes_no_call p s :
  state p = "present" ->
  type p = None ->
  run St sd py_str exn_str camel_to_snake p s
  = (Exited (Rejected (RequiredIfMissing "state" "present" ["type"])), [], s).
Proof. apply present_without_type_is_rejected. Qed.

(** X18: a [type] that is given and is neither DNS_PRIVATE nor DNS_PUBLIC
    is rejected by its [choices], and the run makes no remote call; so is
    the value "private" that the second entry of [required_if] tests for. *)
Theorem type_outside_choices_makes_no_call p t s :
  state p = "present" \/ state p = "absent" ->
  type p = Some t ->
  t <> "DNS_PRIVATE" ->
  t <> "DNS_PUBLIC" ->
  run St sd py_str exn_str camel_to_snake p s
  = (Exited (Rejected (BadChoice "type")), [], s).
Proof.
  intros Hs Ht H1 H2.
  assert (Hc : check_argument_values p = Some (BadChoice "type")).
  { unfold check_argument_values, argument_choices, find, param, fst, snd.
    simpl String.eqb. cbv iota. rewrite Ht. cbn [opt_value existsb].
    destruct (String.eqb_spec t "DNS_PRIVATE"); [contradiction |].
    destruct (String.eqb_spec t "DNS_PUBLIC"); [contradiction |].
    cbn [orb negb].
    destruct Hs as [Hs | Hs]; rewrite Hs; reflexivity. }
  unfold run, main, bind, AnsibleAWSModule. rewrite Hc. reflexivity.
Qed.

End Rejection.

(** ** More on normalisation *)

Section Jsonize.

Variable py_str : value -> string.

(** X19: [jsonize] keeps the keys of a dictionary, in their order, and
    the value under every key other than [createdAt], [deployments] and
    [events]. *)
Theorem jsonize_keeps_other_fields d v :
  jsonize py_str (VDict d) = inr v ->
  exists d',
    v = VDict d'
    /\ map fst d' = map fst d
    /\ forall k, k <> "createdAt" -> k <> "deployments" -> k <> "events" ->
                 dict_get k d' = dict_get k d.
Proof. apply jsonize_frame. Qed.

(** X20: on a dictionary without [deployments] and [events], the value
    under [createdAt] is replaced by [str] of it, whatever its type, and
    nothing else changes. *)
Theorem jsonize_stringifies_created_at d v :
  dict_get "createdAt" d = Some v ->
  dict_get "deployments" d = None ->
  dict_get "events" d = None ->
  jsonize py_str (VDict d)
  = inr (VDict (dict_set "createdAt" (VStr (py_str v)) d)).
Proof. apply jsonize_created_at. Qed.

Lemma stringify_dict_total key d :
  exists d', stringify py_str key (VDict d) = inr (VDict d')
             /\ same_but key d d'.
Proof.
  destruct (stringify py_str key (VDict d)) as [e | v] eqn:E.
  - exfalso. revert E.
    unfold stringify, py_contains, py_getitem, py_setitem, rbind, dict_has.
    destruct (dict_get key d); discriminate.
  - destruct (stringify_same_but py_str key d v E) as [d' [-> H]].
    exists d'. split; [reflexivity | exact H].
Qed.

Lemma result_map_dicts_total (each : value -> result value) ds :
  (forall d, exists d', each (VDict d) = inr (VDict d')) ->
  exists ds', result_map each (map VDict ds) = inr ds'.
Proof.
  intros H. induction ds as [| d ds [ds' IH]]; [eexists; reflexivity |].
  destruct (H d) as [d' Hd]. cbn [map result_map].
  rewrite Hd, IH. eexists. reflexivity.
Qed.

Lemma stringify_each_total key each d :
  (forall x, exists x', each (VDict x) = inr (VDict x')) ->
  (forall xs, dict_get key d = Some xs -> exists ds, xs = VList (map VDict ds)) ->
  exists d', stringify_each key each (VDict d) = inr (VDict d')
             /\ same_but key d d'.
Proof.
  intros Heach Hshape.
  destruct (stringify_each key each (VDict d)) as [e | v] eqn:E.
  - exfalso. revert E.
    unfold stringify_each, py_contains, py_getitem, py_setitem, rbind,
      dict_has.
    destruct (dict_get key d) as [xs |]; [| discriminate].
    destruct (Hshape xs eq_refl) as [ds ->]. cbn [py_iter].
    destruct (result_map_dicts_total each ds Heach) as [ds' ->].
    discriminate.
  - destruct (stringify_each_same_but key each d v E) as [d' [-> H]].
    exists d'. split; [reflexivity | exact H].
Qed.

(** X21: [jsonize] does not raise on a dictionary whose [deployments] and
    [events], when present, are lists of dictionaries: it returns a
    dictionary. *)
Theorem jsonize_succeeds_on_lists_of_dicts d :
  (forall xs, dict_get "deployments" d = Some xs ->
              exists ds, xs = VList (map VDict ds)) ->
  (forall xs, dict_get "events" d = Some xs ->
              exists ds, xs = VList (map VDict ds)) ->
  exists d', jsonize py_str (VDict d) = inr (VDict d').
Proof.
  intros Hdep Hev. unfold jsonize.
  destruct (stringify_dict_total "createdAt" d) as [d1 [E1 [_ G1]]].
  rewrite E1. cbn [rbind].
  destruct (stringify_each_total "deployments"
              (fun x => let* x := stringify py_str "createdAt" x in
                        stringify py_str "updatedAt" x) d1)
    as [d2 [E2 [_ G2]]].
  { intros x. destruct (stringify_dict_total "createdAt" x) as [x1 [Ex1 _]].
    destruct (stringify_dict_total "updatedAt" x1) as [x2 [Ex2 _]].
    exists x2. rewrite Ex1. exact Ex2. }
  { intros xs Hxs. apply Hdep. rewrite <- Hxs. symmetry. apply G1.
    discriminate. }
  rewrite E2. cbn [rbind].
  destruct (stringify_each_total "events"
              (fun x => stringify py_str "createdAt" x) d2)
    as [d3 [E3 _]].
  { intros x. destruct (stringify_dict_total "createdAt" x) as [x1 [Ex1 _]].
    exists x1. exact Ex1. }
  { intros xs Hxs. apply Hev. rewrite <- Hxs.
    rewrite <- (G1 "events") by discriminate. symmetry. apply G2.
    discriminate. }
  exists d3. exact E3.
Qed.

Lemma stringify_each_raises key each d xs e :
  dict_get key d = Some xs ->
  py_iter xs = inl e ->
  stringify_each key each (VDict d) = inl e.
Proof.
  intros Hd Hi. unfold stringify_each, py_contains, dict_has, py_getitem.
  rewrite Hd. cbn [rbind]. rewrite Hi. reflexivity.
Qed.

(** X22: [jsonize] raises when [deployments] is there and cannot be
    iterated over ([None], a number, a datetime): the error of the [for]
    loop comes out of it. *)
Theorem jsonize_raises_on_bad_deployments d xs e :
  dict_get "deployments" d = Some xs ->
  py_iter xs = inl e ->
  jsonize py_str (VDict d) = inl e.
Proof.
  intros Hd Hi. unfold jsonize.
  destruct (stringify_dict_total "createdAt" d) as [d1 [E1 [_ G1]]].
  rewrite E1. cbn [rbind].
  assert (Hd1 : dict_get "deployments" d1 = Some xs)
    by (rewrite G1 by discriminate; exact Hd).
  rewrite (stringify_each_raises _ _ _ _ _ Hd1 Hi). reflexivity.
Qed.

End Jsonize.

(** ** Creating, then deleting, against the stateful remote *)

Section RoundTrip.

Variable py_str : value -> string.
Variable exn_str : exn -> string.
Variable camel_to_snake : string -> string.




End RoundTrip.

(** ** The further theorems at work *)

Lemma listing_error_is_reported_witness :
  run unit unreachable sample_str sample_exn_str sample_snake
    (example_params "present" (Some "DNS_PUBLIC") None true) tt
  = (Exited (FailJson "Exception 'my-namespace': EndpointConnectionError"),
     [Call (list_namespaces_call
              [("Filters", type_filters (Some "DNS_PUBLIC"))])],
     tt).
Proof.
  apply (listing_error_is_reported unit unreachable sample_str sample_exn_str
           sample_snake
           (example_params "present" (Some "DNS_PUBLIC") None true) tt
           (ClientError "EndpointConnectionError") tt).
  - left. split; [reflexivity | right; reflexivity].
  - reflexivity.
Defined.

Lemma falsy_listing_fails_witness :
  run unit mute sample_str sample_exn_str sample_snake
    (example_params "absent" None None true) tt
  = (Exited (FailJson "Exception 'my-namespace': TypeError"),
     [Call (list_namespaces_call [("Filters", VList [])])],
     tt).
Proof.
  apply (falsy_listing_fails unit mute sample_str sample_exn_str sample_snake
           (example_params "absent" None None true) tt (VDict []) tt).
  - right. split; [reflexivity | left; reflexivity].
  - reflexivity.
  - reflexivity.
Defined.

Lemma absent_with_several_matches_deletes_the_first_witness :
  run Fake.remote Fake.client sample_str sample_exn_str sample_snake
    (example_params "absent" (Some "DNS_PRIVATE") None true)
    example_remote_twice
  = (Exited (ExitJson [("changed", VBool true)]),
     [Call (list_namespaces_call
              [("Filters", type_filters (Some "DNS_PRIVATE"))]);
      Call (delete_namespace_call [("Id", VStr "ns-0")])],
     snd (Fake.client (delete_namespace_call [("Id", VStr "ns-0")])
            example_remote_twice)).
Proof.
  apply (absent_with_several_matches_deletes_the_first Fake.remote Fake.client
           sample_str sample_exn_str sample_snake
           (example_params "absent" (Some "DNS_PRIVATE") None true)
           example_remote_twice
           (map Fake.summary (Fake.namespaces example_remote_twice))
           example_remote_twice
           (Fake.summary (Fake.new_namespace "DNS_PRIVATE" "my-namespace"
                            (Fake.empty 0)))
           [Fake.summary (Fake.new_namespace "DNS_PRIVATE" "my-namespace"
                            example_remote)]
           (VStr "ns-0") (VDict [("OperationId", VStr "op-2")])).
  - reflexivity.
  - right; left; reflexivity.
  - eexists; split; reflexivity.
  - reflexivity.
  - reflexivity.
  - reflexivity.
Defined.

Lemma delete_error_is_reported_witness :
  run Fake.remote read_only sample_str sample_exn_str sample_snake
    (example_params "absent" (Some "DNS_PRIVATE") None true) example_remote
  = (Exited (FailJson "Exception 'my-namespace': AccessDeniedException"),
     [Call (list_namespaces_call
              [("Filters", type_filters (Some "DNS_PRIVATE"))]);
      Call (delete_namespace_call [("Id", VStr "ns-0")])],
     example_remote).
Proof.
  apply (delete_error_is_reported Fake.remote read_only sample_str
           sample_exn_str sample_snake
           (example_params "absent" (Some "DNS_PRIVATE") None true)
           example_remote
           (map Fake.summary (Fake.namespaces example_remote))
           example_remote
           (Fake.summary (Fake.new_namespace "DNS_PRIVATE" "my-namespace"
                            (Fake.empty 0)))
           [] (VStr "ns-0") (ClientError "AccessDeniedException")).
  - reflexivity.
  - right; left; reflexivity.
  - eexists; split; reflexivity.
  - reflexivity.
  - reflexivity.
  - reflexivity.
Defined.

Lemma empty_namespace_fails_witness :
  run Fake.remote hollow sample_str sample_exn_str sample_snake
    (example_params "present" (Some "DNS_PRIVATE") (Some "vpc-123") true)
    example_remote
  = (Exited (FailJson "Exception 'my-namespace': AttributeError"),
     [Call (list_namespaces_call
              [("Filters", type_filters (Some "DNS_PRIVATE"))]);
      Call (get_namespace_call [("Id", VStr "ns-0")])],
     example_remote).
Proof.
  apply (empty_namespace_fails Fake.remote hollow sample_str sample_exn_str
           sample_snake
           (example_params "present" (Some "DNS_PRIVATE") (Some "vpc-123")
              true)
           example_remote
           (map Fake.summary (Fake.namespaces example_remote))
           example_remote
           (Fake.summary (Fake.new_namespace "DNS_PRIVATE" "my-namespace"
                            (Fake.empty 0)))
           (VStr "ns-0") (VDict [("Namespace", VDict [])]) example_remote
           (VDict [])).
  - reflexivity.
  - left; reflexivity.
  - eexists; split; reflexivity.
  - reflexivity.
  - reflexivity.
  - reflexivity.
  - reflexivity.
  - reflexivity.
Defined.

Lemma present_never_deletes_witness :
  filter is_delete
    (snd (fst (run Fake.remote Fake.client sample_str sample_exn_str
                 sample_snake
                 (example_params "present" (Some "DNS_PRIVATE")
                    (Some "vpc-123") true)
                 example_remote)))
  = [].
Proof.
  apply (present_never_deletes Fake.remote Fake.client sample_str
           sample_exn_str sample_snake
           (example_params "present" (Some "DNS_PRIVATE") (Some "vpc-123")
              true)
           example_remote).
  reflexivity.
Defined.

Lemma absent_only_lists_and_deletes_witness :
  forallb (fun ev => match ev with
                     | Call (list_namespaces_call _) => true
                     | Call (delete_namespace_call _) => true
                     | _ => false
                     end)
    (snd (fst (run Fake.remote Fake.client sample_str sample_exn_str
                 sample_snake
                 (example_params "absent" (Some "DNS_PRIVATE") None true)
                 example_remote)))
  = true.
Proof.
  apply (absent_only_lists_and_deletes Fake.remote Fake.client sample_str
           sample_exn_str sample_snake
           (example_params "absent" (Some "DNS_PRIVATE") None true)
           example_remote).
  reflexivity.
Defined.

Lemma example_create_answered :
  create_answered Fake.remote Fake.client
    (example_params "present" (Some "DNS_PRIVATE") (Some "vpc-123") true)
    (Fake.empty 2)
    (Fake.summary (Fake.new_namespace "DNS_PRIVATE" "my-namespace"
                     (Fake.empty 2)))
    (polls_trace (VStr "op-0") 2
     ++ [Call (poll_call (VStr "op-0"));
         Call (get_namespace_call [("Id", VStr "ns-0")])])
    (Fake.with_created "DNS_PRIVATE" "my-namespace" 0 (Fake.empty 2)).
Proof.
  eapply (answered_waited Fake.remote Fake.client _ _
            (VDict [("OperationId", VStr "op-0")])
            (Fake.with_created "DNS_PRIVATE" "my-namespace" 2 (Fake.empty 2))
            (VStr "op-0") 2).
  - reflexivity.
  - reflexivity.
  - reflexivity.
  - apply (fake_succeeds_at "DNS_PRIVATE" "my-namespace" (Fake.empty 2) 2
             (fake_empty_fresh 2)).
    unfold maxAttempts. lia.
  - reflexivity.
  - reflexivity.
  - reflexivity.
  - reflexivity.
  - reflexivity.
  - reflexivity.
Defined.

Lemma waited_create_fetches_once_witness :
  List.length
    (filter is_fetch
       (snd (fst (run Fake.remote Fake.client sample_str sample_exn_str
                    sample_snake
                    (example_params "present" (Some "DNS_PRIVATE")
                       (Some "vpc-123") true)
                    (Fake.empty 2))))) = 1
  /\ List.length
       (filter is_poll
          (snd (fst (run Fake.remote Fake.client sample_str sample_exn_str
                       sample_snake
                       (example_params "present" (Some "DNS_PRIVATE")
                          (Some "vpc-123") true)
                       (Fake.empty 2)))))
     = List.length
         (filter is_sleep
            (snd (fst (run Fake.remote Fake.client sample_str sample_exn_str
                         sample_snake
                         (example_params "present" (Some "DNS_PRIVATE")
                            (Some "vpc-123") true)
                         (Fake.empty 2))))) + 2
  /\ List.length
       (filter is_poll
          (snd (fst (run Fake.remote Fake.client sample_str sample_exn_str
                       sample_snake
                       (example_params "present" (Some "DNS_PRIVATE")
                          (Some "vpc-123") true)
                       (Fake.empty 2)))))
     <= maxAttempts + 1.
Proof.
  eapply (waited_create_fetches_once Fake.remote Fake.client sample_str
           sample_exn_str sample_snake
           (example_params "present" (Some "DNS_PRIVATE") (Some "vpc-123")
              true)
           (Fake.empty 2) [] (Fake.empty 2) _ _ _
           [("Id", VStr "ns-0"); ("Name", VStr "my-namespace");
            ("Type", VStr "DNS_PRIVATE")]).
  - reflexivity.
  - left; reflexivity.
  - eexists; split; reflexivity.
  - reflexivity.
  - reflexivity.
  - exact example_create_answered.
  - reflexivity.
Defined.

Lemma unwaited_create_makes_no_poll_witness :
  run Fake.remote Fake.client sample_str sample_exn_str sample_snake
    (example_params "present" (Some "DNS_PUBLIC") None false) (Fake.empty 3)
  = (Exited (ExitJson [("changed", VBool true);
                       ("namespace",
                        VDict [("operation_id", VStr "op-0")])]),
     [Call (listing_call
              (example_params "present" (Some "DNS_PUBLIC") None false));
      Call (create_public_dns_namespace_call
              [("Name", VStr "my-namespace")])],
     Fake.with_created "DNS_PUBLIC" "my-namespace" 3 (Fake.empty 3))
  /\ filter (fun ev => is_poll ev || is_sleep ev || is_fetch ev)
       (snd (fst (run Fake.remote Fake.client sample_str sample_exn_str
                    sample_snake
                    (example_params "present" (Some "DNS_PUBLIC") None false)
                    (Fake.empty 3))))
     = [].
Proof.
  apply (unwaited_create_makes_no_poll Fake.remote Fake.client sample_str
           sample_exn_str sample_snake
           (example_params "present" (Some "DNS_PUBLIC") None false)
           (Fake.empty 3) [] (Fake.empty 3)
           (VDict [("OperationId", VStr "op-0")])
           (Fake.with_created "DNS_PUBLIC" "my-namespace" 3 (Fake.empty 3))
           (VStr "op-0") [("OperationId", VStr "op-0")]).
  - reflexivity.
  - right; reflexivity.
  - eexists; split; reflexivity.
  - reflexivity.
  - reflexivity.
  - reflexivity.
  - reflexivity.
  - reflexivity.
Defined.

Lemma create_call_optional_arguments_witness :
  exists out c tr s',
    run Fake.remote Fake.client sample_str sample_exn_str sample_snake
      {| state := "present"; type := Some "DNS_PUBLIC"; name := "my-namespace";
         creator_request_id := Some "token-1"; description := Some "";
         wait := false; vpc_id := None |}
      (Fake.empty 0)
    = (out,
       Call (listing_call
               {| state := "present"; type := Some "DNS_PUBLIC";
                  name := "my-namespace";
                  creator_request_id := Some "token-1";
                  description := Some ""; wait := false; vpc_id := None |})
         :: Call c :: tr,
       s')
    /\ dict_get "CreatorRequestId" (call_kwargs c) = Some (VStr "token-1")
    /\ dict_get "description" (call_kwargs c) = None
    /\ dict_get "Description" (call_kwargs c) = None.
Proof.
  apply (create_call_optional_arguments Fake.remote Fake.client sample_str
           sample_exn_str sample_snake
           {| state := "present"; type := Some "DNS_PUBLIC";
              name := "my-namespace"; creator_request_id := Some "token-1";
              description := Some ""; wait := false; vpc_id := None |}
           (Fake.empty 0) [] (Fake.empty 0)).
  - reflexivity.
  - right; reflexivity.
  - eexists; split; reflexivity.
  - reflexivity.
Defined.

Lemma private_without_vpc_id_sends_none_witness :
  exists out kwargs tr s',
    run Fake.remote Fake.client sample_str sample_exn_str sample_snake
      (example_params "present" (Some "DNS_PRIVATE") None true) (Fake.empty 0)
    = (out,
       Call (listing_call
               (example_params "present" (Some "DNS_PRIVATE") None true))
         :: Call (create_private_dns_namespace_call kwargs) :: tr,
       s')
    /\ dict_get "Vpc" kwargs = Some VNone.
Proof.
  apply (private_without_vpc_id_sends_none Fake.remote Fake.client sample_str
           sample_exn_str sample_snake
           (example_params "present" (Some "DNS_PRIVATE") None true)
           (Fake.empty 0) [] (Fake.empty 0)).
  - reflexivity.
  - reflexivity.
  - reflexivity.
  - eexists; split; reflexivity.
  - reflexivity.
Defined.

Lemma absent_run_ends_witness :
  exists out tr s',
    run Fake.remote read_only sample_str sample_exn_str sample_snake
      (example_params "absent" (Some "DNS_PRIVATE") None true) example_remote
    = (Exited out, tr, s')
    /\ ((out = ExitJson [("changed", VBool true)]
         /\ exists id,
              tr = [Call (listing_call
                            (example_params "absent" (Some "DNS_PRIVATE")
                               None true));
                    Call (delete_namespace_call [("Id", id)])])
        \/ ((exists e,
               out = FailJson
                       (failure_message sample_exn_str
                          (example_params "absent" (Some "DNS_PRIVATE") None
                             true) e))
            /\ (tr = [Call (listing_call
                              (example_params "absent" (Some "DNS_PRIVATE")
                                 None true))]
                \/ exists id,
                     tr = [Call (listing_call
                                   (example_params "absent"
                                      (Some "DNS_PRIVATE") None true));
                           Call (delete_namespace_call [("Id", id)])]))).
Proof.
  apply (absent_run_ends Fake.remote read_only sample_str sample_exn_str
           sample_snake
           (example_params "absent" (Some "DNS_PRIVATE") None true)
           example_remote).
  - reflexivity.
  - right; left; reflexivity.
Defined.

Lemma present_run_ends_witness :
  exists out tr s',
    run Fake.remote hollow sample_str sample_exn_str sample_snake
      (example_params "present" (Some "DNS_PUBLIC") None true) (Fake.empty 12)
    = (out, tr, s')
    /\ ((exists n id,
           out = Exited (ExitJson [("changed", VBool false);
                                   ("namespace", n)])
           /\ tr = [Call (listing_call
                            (example_params "present" (Some "DNS_PUBLIC")
                               None true));
                    Call (get_namespace_call [("Id", id)])])
        \/ (exists n tr',
              out = Exited (ExitJson [("changed", VBool true);
                                      ("namespace", n)])
              /\ tr = Call (listing_call
                             (example_params "present" (Some "DNS_PUBLIC")
                                None true))
                        :: Call (create_call
                                   (example_params "present"
                                      (Some "DNS_PUBLIC") None true))
                        :: tr'
              /\ filter is_create tr' = [])
        \/ (exists e,
              out = Exited (FailJson
                              (failure_message sample_exn_str
                                 (example_params "present" (Some "DNS_PUBLIC")
                                    None true) e)))
        \/ (out = Traceback TypeError
            /\ tr = [Call (listing_call
                             (example_params "present" (Some "DNS_PUBLIC")
                                None true))])).
Proof.
  apply (present_run_ends Fake.remote hollow sample_str sample_exn_str
           sample_snake
           (example_params "present" (Some "DNS_PUBLIC") None true)
           (Fake.empty 12)).
  - reflexivity.
  - right; reflexivity.
Defined.

Lemma matching_namespaces_is_filter_witness :
  matching_namespaces "my-namespace"
    (map Fake.summary (Fake.namespaces example_remote_twice))
  = inr (filter (fun ns => match py_getitem ns "Name" with
                           | inr n => py_eq_str n "my-namespace"
                           | inl _ => false
                           end)
           (map Fake.summary (Fake.namespaces example_remote_twice))).
Proof.
  apply (matching_namespaces_is_filter "my-namespace"
           (map Fake.summary (Fake.namespaces example_remote_twice))).
  repeat constructor; eexists; reflexivity.
Defined.

Lemma matching_namespaces_missing_name_witness :
  matching_namespaces "my-namespace"
    (map Fake.summary (Fake.namespaces example_remote)
     ++ VDict [("Id", VStr "ns-9")] :: [])
  = inl (KeyError "Name").
Proof.
  apply (matching_namespaces_missing_name "my-namespace"
           (map Fake.summary (Fake.namespaces example_remote))
           [("Id", VStr "ns-9")] []).
  - repeat constructor; eexists; reflexivity.
  - reflexivity.
Defined.

Lemma present_without_type_makes_no_call_witness :
  run unit unreachable sample_str sample_exn_str sample_snake
    (example_params "present" None None true) tt
  = (Exited (Rejected (RequiredIfMissing "state" "present" ["type"])), [], tt).
Proof.
  apply (present_without_type_makes_no_call unit unreachable sample_str
           sample_exn_str sample_snake
           (example_params "present" None None true) tt);
    reflexivity.
Defined.

Lemma type_outside_choices_makes_no_call_witness :
  run unit unreachable sample_str sample_exn_str sample_snake
    (example_params "present" (Some "private") None true) tt
  = (Exited (Rejected (BadChoice "type")), [], tt).
Proof.
  apply (type_outside_choices_makes_no_call unit unreachable sample_str
           sample_exn_str sample_snake
           (example_params "present" (Some "private") None true) "private"
           tt).
  - left; reflexivity.
  - reflexivity.
  - discriminate.
  - discriminate.
Defined.

Lemma jsonize_keeps_other_fields_witness :
  exists d',
    VDict [("serviceName", VStr "web");
           ("createdAt", VStr "datetime@1546300800");
           ("deployments",
            VList [VDict [("id", VStr "d-1");
                          ("createdAt", VStr "datetime@1546300800");
                          ("updatedAt", VStr "datetime@1546300860")]]);
           ("events",
            VList [VDict [("message", VStr "started");
                          ("createdAt", VStr "datetime@1546300900")]])]
    = VDict d'
    /\ map fst d' = map fst example_service
    /\ forall k, k <> "createdAt" -> k <> "deployments" -> k <> "events" ->
                 dict_get k d' = dict_get k example_service.
Proof.
  apply (jsonize_keeps_other_fields sample_str example_service).
  reflexivity.
Defined.

Lemma jsonize_stringifies_created_at_witness :
  jsonize sample_str (VDict [("Id", VStr "ns-1"); ("createdAt", VInt 5)])
  = inr (VDict [("Id", VStr "ns-1"); ("createdAt", VStr "5")]).
Proof.
  apply (jsonize_stringifies_created_at sample_str
           [("Id", VStr "ns-1"); ("createdAt", VInt 5)] (VInt 5));
    reflexivity.
Defined.

Lemma jsonize_succeeds_on_lists_of_dicts_witness :
  exists d', jsonize sample_str (VDict example_service) = inr (VDict d').
Proof.
  apply (jsonize_succeeds_on_lists_of_dicts sample_str example_service).
  - intros xs H. inversion H.
    exists [[("id", VStr "d-1"); ("createdAt", VDatetime 1546300800);
             ("updatedAt", VDatetime 1546300860)]].
    reflexivity.
  - intros xs H. inversion H.
    exists [[("message", VStr "started");
             ("createdAt", VDatetime 1546300900)]].
    reflexivity.
Defined.

Lemma jsonize_raises_on_bad_deployments_witness :
  jsonize sample_str (VDict [("Id", VStr "ns-1"); ("deployments", VNone)])
  = inl TypeError.
Proof.
  apply (jsonize_raises_on_bad_deployments sample_str
           [("Id", VStr "ns-1"); ("deployments", VNone)] VNone TypeError);
    reflexivity.
Defined.


Lemma create_error_is_reported_witness :
  run Fake.remote read_only sample_str sample_exn_str sample_snake
    (example_params "present" (Some "DNS_PUBLIC") None true) (Fake.empty 0)
  = (Exited (FailJson "Exception 'my-namespace': AccessDeniedException"),
     [Call (listing_call
              (example_params "present" (Some "DNS_PUBLIC") None true));
      Call (create_public_dns_namespace_call
              [("Name", VStr "my-namespace")])],
     Fake.empty 0).
Proof.
  apply (create_error_is_reported Fake.remote read_only sample_str
           sample_exn_str sample_snake
           (example_params "present" (Some "DNS_PUBLIC") None true)
           (Fake.empty 0) [] (Fake.empty 0)
           (ClientError "AccessDeniedException") (Fake.empty 0)).
  - reflexivity.
  - right; reflexivity.
  - eexists; split; reflexivity.
  - reflexivity.
  - reflexivity.
Defined.

Lemma wait_gives_up_after_ten_polls_witness :
  run Fake.remote Fake.client sample_str sample_exn_str sample_snake
    (example_params "present" (Some "DNS_PUBLIC") None true) (Fake.empty 10)
  = (Exited (FailJson
               "Exception 'my-namespace': Waiter namespace_created failed: Max attempts exceeded"),
     Call (listing_call
             (example_params "present" (Some "DNS_PUBLIC") None true))
       :: Call (create_public_dns_namespace_call
                  [("Name", VStr "my-namespace")])
       :: polls_trace (VStr "op-0") 9,
     after_polls Fake.remote Fake.client (VStr "op-0") 10
       (Fake.with_created "DNS_PUBLIC" "my-namespace" 10 (Fake.empty 10))).
Proof.
  apply (wait_gives_up_after_ten_polls Fake.remote Fake.client sample_str
           sample_exn_str sample_snake
           (example_params "present" (Some "DNS_PUBLIC") None true)
           (Fake.empty 10) [] (Fake.empty 10)
           (VDict [("OperationId", VStr "op-0")])
           (Fake.with_created "DNS_PUBLIC" "my-namespace" 10 (Fake.empty 10))
           (VStr "op-0")).
  - reflexivity.
  - right; reflexivity.
  - eexists; split; reflexivity.
  - reflexivity.
  - reflexivity.
  - reflexivity.
  - reflexivity.
  - intros i Hi.
    change (VStr "op-0") with (VStr (Fake.fresh_op_id (Fake.empty 10))).
    rewrite (fake_poll_answer "DNS_PUBLIC" "my-namespace" (Fake.empty 10) i
               10 (fake_empty_fresh 10)).
    unfold maxAttempts in Hi.
    destruct (10 - i) as [| j] eqn:E; [lia |].
    eexists. split; [reflexivity | split; reflexivity].
Defined.

(** ** The lookup and the wait at work among other namespaces *)


Lemma absent_with_one_match_deletes_it_witness :
  exists r2,
    run Fake.remote Fake.client sample_str sample_exn_str sample_snake
      (example_params "absent" (Some "DNS_PRIVATE") None true) crowded_remote
    = (Exited (ExitJson [("changed", VBool true)]),
       [Call (list_namespaces_call
                [("Filters",
                  VList [VDict [("Name", VStr "TYPE");
                                ("Values", VList [VStr "DNS_PRIVATE"])]])]);
        Call (delete_namespace_call [("Id", VStr "ns-2")])],
       r2)
    /\ ~ In {| Fake.ns_id := "ns-2"; Fake.ns_name := "my-namespace";
               Fake.ns_type := "DNS_PRIVATE" |} (Fake.namespaces r2).
Proof.
  apply (absent_with_one_match_deletes_it sample_str sample_exn_str
           sample_snake
           (example_params "absent" (Some "DNS_PRIVATE") None true)
           crowded_remote
           [{| Fake.ns_id := "ns-0"; Fake.ns_name := "other";
               Fake.ns_type := "DNS_PRIVATE" |};
            {| Fake.ns_id := "ns-1"; Fake.ns_name := "my-namespace";
               Fake.ns_type := "DNS_PUBLIC" |}]
           {| Fake.ns_id := "ns-2"; Fake.ns_name := "my-namespace";
              Fake.ns_type := "DNS_PRIVATE" |}
           []).
  - reflexivity.
  - right; left; reflexivity.
  - reflexivity.
  - reflexivity.
  - reflexivity.
  - intros x [<- | [<- | []]] [Hn Ht]; discriminate.
Defined.

Lemma slow_remote_fresh : Fake.fresh slow_remote.
Proof.
  split; [intros o [] |]. intros ns [<- | []]. discriminate.
Defined.

Lemma wait_without_success_fails_witness :
  exists e events s',
    run Fake.remote Fake.client sample_str sample_exn_str sample_snake
      (example_params "present" (Some "DNS_PUBLIC") None true) slow_remote
    = (Exited (FailJson
                 ("Exception 'my-namespace': " ++ sample_exn_str e)%string),
       events, s')
    /\ waiter_error Fake.remote Fake.client (VStr "op-1")
         (Fake.with_created "DNS_PUBLIC" "my-namespace" 10 slow_remote) 10 e
    /\ List.length (filter is_poll events) <= 10.
Proof.
  apply (wait_without_success_fails Fake.remote Fake.client sample_str
           sample_exn_str sample_snake
           (example_params "present" (Some "DNS_PUBLIC") None true)
           slow_remote
           (map Fake.summary (Fake.namespaces slow_remote))
           slow_remote
           (VDict [("OperationId", VStr "op-1")])
           (Fake.with_created "DNS_PUBLIC" "my-namespace" 10 slow_remote)
           (VStr "op-1")).
  - reflexivity.
  - right; reflexivity.
  - eexists; split; reflexivity.
  - repeat constructor. do 2 eexists.
    split; [reflexivity | split; [reflexivity | discriminate]].
  - reflexivity.
  - reflexivity.
  - reflexivity.
  - intros i Hi [d [o [Hv [Hop Hst]]]].
    change (VStr "op-1") with (VStr (Fake.fresh_op_id slow_remote)) in Hv.
    rewrite (fake_poll_answer "DNS_PUBLIC" "my-namespace" slow_remote i 10
               slow_remote_fresh) in Hv.
    destruct (10 - i) as [| j] eqn:E; [lia |].
    inversion Hv; subst d. inversion Hop; subst o. discriminate Hst.
Defined.
